(** * The Paper embedded-wallet connector for wagmi

    A shallow embedding of
    [packages/embedded-wallet-service-wagmi/src/lib/connector.ts]:
    the class [PaperEmbeddedWalletWagmiConnector] and the lookup [getChain].

    The connector is a thin layer over two packages it imports: the embedded
    wallet SDK and wagmi.  What they do is not decided by the connector, so
    they enter the model as an interface ([Externals]); every definition and
    theorem is stated for an arbitrary implementation of it. *)

From Stdlib Require Import String Ascii List ZArith Bool Lia.
Import ListNotations.
Open Scope string_scope.

Set Implicit Arguments.

(** ** JavaScript values *)

(** Thrown values.  [Error message] is [new Error(message)];
    [UserRejectedRequestError cause] is wagmi's error class wrapping the
    value it was constructed from; [TypeError message] is the error the
    engine throws when a property of [undefined] is read. *)
Inductive JsError : Type :=
| Error (message : string)
| UserRejectedRequestError (cause : JsError)
| TypeError (message : string).

(** How the evaluation of a call ends.  For an [async] method, [Ok] is the
    value its promise resolves with and [Throw] the value it rejects with. *)
Inductive Completion (A : Type) : Type :=
| Ok (a : A)
| Throw (e : JsError).
Arguments Ok {A} a.
Arguments Throw {A} e.

(** A promise that is already settled when it is handed out (what
    [Promise.resolve] builds). *)
Inductive Promise (A : Type) : Type :=
| Fulfilled (a : A)
| Rejected (e : JsError).
Arguments Fulfilled {A} a.
Arguments Rejected {A} e.

(** An object other than the connector, as far as an event relay uses it:
    how its [emit] and its [isChainUnsupported] end when the relay calls
    them (a [TypeError] when it has no such method).  What that object does
    with the call is its own affair and no part of the connector's state. *)
Record OtherObject : Type := {
  other_emit : Completion unit;
  other_isChainUnsupported : Completion bool
}.

(** The value of [this] in a run of an event relay.  The relays are plain
    methods, so [this] is the connector only when the relay is called on the
    connector; handed over as a bare function, a relay runs with whatever
    receiver its caller supplies: [undefined], or another object such as the
    provider that delivers a notification. *)
Inductive Receiver : Type :=
| ThisConnector
| ThisUndefined
| ThisOther (o : OtherObject).

(** The receivers a relay can have when it is not called on the connector. *)
Definition unbound (r : Receiver) : bool :=
  match r with
  | ThisConnector => false
  | ThisUndefined | ThisOther _ => true
  end.

(** The double quote character, for messages that quote [connect()]. *)
Definition dquote : string := String "034"%char EmptyString.

(** [!!s] for a string: only the empty string is falsy. *)
Definition truthy_string (s : string) : bool :=
  match s with
  | EmptyString => false
  | String _ _ => true
  end.

(** ** Types imported from wagmi, ethers and the SDK *)

(** wagmi's [Chain]; the connector reads [id] only. *)
Record Chain : Type := { id : Z; name : string }.

(** ethers' [Networkish]: a network name or URL, a chain id, or a network
    object. *)
Inductive Networkish : Type :=
| NetworkName (s : string)
| NetworkChainId (n : Z)
| NetworkObject (net_name : string) (net_chainId : Z).

Definition truthy_Networkish (n : Networkish) : bool :=
  match n with
  | NetworkName s => truthy_string s
  | NetworkChainId z => negb (Z.eqb z 0)
  | NetworkObject _ _ => true
  end.

(** Modelled from the spec: the SDK's [UserStatus] enumeration, whose
    declaration is in the SDK package.  The connector names one member,
    [LOGGED_IN_WALLET_INITIALIZED], the status of a fully initialized wallet
    session; the other members are the statuses that are not.  The connector
    only compares a status with that one member. *)
Inductive UserStatus : Type :=
| LOGGED_OUT
| LOGGED_IN_WALLET_UNINITIALIZED
| LOGGED_IN_NEW_DEVICE
| LOGGED_IN_WALLET_INITIALIZED.

Definition UserStatus_eqb (a b : UserStatus) : bool :=
  match a, b with
  | LOGGED_OUT, LOGGED_OUT
  | LOGGED_IN_WALLET_UNINITIALIZED, LOGGED_IN_WALLET_UNINITIALIZED
  | LOGGED_IN_NEW_DEVICE, LOGGED_IN_NEW_DEVICE
  | LOGGED_IN_WALLET_INITIALIZED, LOGGED_IN_WALLET_INITIALIZED => true
  | _, _ => false
  end.

(** Handles for objects owned by the SDK and by ethers. *)
Definition EmbeddedWallet : Type := nat.
Definition Provider : Type := nat.

(** What [sdk.getUser()] resolves with: an object with a [status] and, for
    an initialized user, the wallet and its address.  The connector reads
    [walletAddress] and [wallet] only from the object it has cached. *)
Record GetUser : Type := {
  status : UserStatus;
  walletAddress : string;
  wallet : EmbeddedWallet
}.

(** The TypeScript type [InitializedUser]: a [GetUser] whose status is
    [LOGGED_IN_WALLET_INITIALIZED]. *)
Definition InitializedUser (u : GetUser) : Prop :=
  status u = LOGGED_IN_WALLET_INITIALIZED.

(** What [auth.loginWithPaperModal()] resolves with. *)
Record AuthLoginReturnType : Type := { resp_user : GetUser }.

(** An ethers [Signer]; its [provider] property may be undefined. *)
Record Signer : Type := { signer_provider : option Provider }.

(** The argument of [getEthersJsSigner]. *)
Record SignerOptions : Type := { opt_rpcEndpoint : Networkish }.

(** [PaperConstructorType & { rpcEndpoint? }], the [options] of the
    connector's configuration.  [clientId] is [None] when the property is
    absent.  [chain] is the string found at run time. *)
Record PaperConstructorType : Type := {
  clientId : option string;
  chain : string;
  options_rpcEndpoint : option Networkish
}.

(** [PaperEmbeddedWalletWagmiConnectorProps]. *)
Record PaperEmbeddedWalletWagmiConnectorProps : Type := {
  config_chains : option (list Chain);
  options : PaperConstructorType
}.

(** The SDK client object built by [new PaperEmbeddedWalletSdk(options)]. *)
Record PaperEmbeddedWalletSdk : Type := { sdk_options : PaperConstructorType }.

(** wagmi's [Address] is the template type of strings that start with 0x.
    Addresses are kept as strings; [is_Address] is the type's membership
    test. *)
Definition Address : Type := string.
Definition is_Address (a : Address) : bool := String.prefix "0x" a.

(** The argument of the chain-change notification, [string | number]. *)
Inductive ChainIdArg : Type :=
| ChainIdString (s : string)
| ChainIdNumber (n : Z).

(** ** What the connector does to the outside, as a record of it *)

(** Calls into the SDK, in the order they are made. *)
Inductive SdkCall : Type :=
| NewSdk (opts : PaperConstructorType)
| CallGetUser
| CallLoginWithPaperModal
| CallLogout
| CallGetEthersJsSigner (w : EmbeddedWallet) (opts : option SignerOptions).

(** The data of a [change] event. *)
Inductive ChangeData : Type :=
| AccountData (account : Address)
| ChainData (chain_id : option Z) (unsupported : bool).

(** Events emitted by the connector: [emit("disconnect")] and
    [emit("change", data)]. *)
Inductive ConnectorEvent : Type :=
| EvDisconnect
| EvChange (data : ChangeData).

(** The connector's methods that are handed to [provider.on].  [connect]
    hands over the bare method ([this.onAccountsChanged], not bound to the
    connector), so a registration names the method and nothing else. *)
Inductive Listener : Type :=
| L_onAccountsChanged
| L_onChainChanged
| L_onDisconnect.

(** [ConnectorData] as returned by [connect]. *)
Record ConnectorData : Type := {
  data_provider : Provider;
  data_chain_id : Z;
  data_chain_unsupported : bool;
  data_account : Address
}.

(** ** The imported packages as an interface *)

(** [World] is the state of everything behind the SDK (its iframe, its
    storage, the servers).  Each SDK operation ends by resolving or by
    throwing and may change the world.  Building the client object with
    [new PaperEmbeddedWalletSdk(options)] is taken to succeed; it is
    recorded among the SDK calls.  The five chain descriptors are the ones
    exported by [wagmi/chains]; [Number_of_string] is JavaScript's [Number]
    on strings, [None] when the result is not an integer. *)
Class Externals : Type := {
  World : Type;
  sdk_getUser : World -> Completion GetUser * World;
  auth_loginWithPaperModal : World -> Completion AuthLoginReturnType * World;
  auth_logout : World -> Completion bool * World;
  wallet_getEthersJsSigner :
    EmbeddedWallet -> option SignerOptions -> World -> Completion Signer * World;
  mainnet : Chain;
  goerli : Chain;
  polygon : Chain;
  polygonMumbai : Chain;
  avalanche : Chain;
  Number_of_string : string -> option Z
}.

(** ** The connector object and the state it runs in *)

(** The fields of [PaperEmbeddedWalletWagmiConnector].  [connector_id] and
    [connector_name] are the class's [id] and [name]; [sdk], [paperOptions],
    [provider], [user] and [rpcEndpoint] are its private fields. *)
Record Connector : Type := {
  ready : bool;
  connector_id : string;
  connector_name : string;
  chains : list Chain;
  sdk : option PaperEmbeddedWalletSdk;
  paperOptions : PaperConstructorType;
  provider : option Provider;
  user : option GetUser;
  rpcEndpoint : option Networkish
}.

Definition set_sdk (v : option PaperEmbeddedWalletSdk) (c : Connector) : Connector :=
  {| ready := ready c; connector_id := connector_id c;
     connector_name := connector_name c; chains := chains c;
     sdk := v; paperOptions := paperOptions c; provider := provider c;
     user := user c; rpcEndpoint := rpcEndpoint c |}.

Definition set_provider (v : option Provider) (c : Connector) : Connector :=
  {| ready := ready c; connector_id := connector_id c;
     connector_name := connector_name c; chains := chains c;
     sdk := sdk c; paperOptions := paperOptions c; provider := v;
     user := user c; rpcEndpoint := rpcEndpoint c |}.

Definition set_user (v : option GetUser) (c : Connector) : Connector :=
  {| ready := ready c; connector_id := connector_id c;
     connector_name := connector_name c; chains := chains c;
     sdk := sdk c; paperOptions := paperOptions c; provider := provider c;
     user := v; rpcEndpoint := rpcEndpoint c |}.

(** The messages of the errors the connector throws. *)
Definition noClientIdError : JsError :=
  Error "No client ID provided. Provide your Paper Embedded Wallet client ID found in the Developer Dashboard.".

Definition unsupportedChainError : JsError :=
  Error "Unsupported chain. See https://docs.withpaper.com/reference/embedded-wallet-service-faq for supported chains.".

Definition notLoggedInError : JsError :=
  Error ("User is not logged in. Try calling " ++ dquote ++ "connect()" ++ dquote ++ " first.").

Definition failedSignerError : JsError :=
  Error ("Failed to get Signer. Try calling " ++ dquote ++ "connect()" ++ dquote ++ " first.").

Definition unexpectedStatusError : JsError :=
  Error "Unexpected user status after logging in. Please try logging in again.".

(** What [this.isChainUnsupported] throws when [this] is [undefined]; the
    wording of the message is the engine's. *)
Definition undefinedReceiverError : JsError :=
  TypeError "Cannot read properties of undefined (reading 'isChainUnsupported')".

(** The chain names the configuration may carry. *)
Definition supported_chain_names : list string :=
  ["Ethereum"; "Goerli"; "Polygon"; "Mumbai"; "Avalanche"].

Section Model.

Context {X : Externals}.

(** Everything outside the connector object: the world behind the SDK, the
    SDK calls made so far, the events the connector has emitted so far and
    the listeners registered on providers so far (oldest first). *)
Record Ambient : Type := {
  world : World;
  sdkCalls : list SdkCall;
  emitted : list ConnectorEvent;
  listeners : list (Provider * string * Listener)
}.

Record System : Type := { this : Connector; env : Ambient }.

Definition set_world (w : World) (a : Ambient) : Ambient :=
  {| world := w; sdkCalls := sdkCalls a; emitted := emitted a;
     listeners := listeners a |}.

Definition log_call (c : SdkCall) (a : Ambient) : Ambient :=
  {| world := world a; sdkCalls := sdkCalls a ++ [c]; emitted := emitted a;
     listeners := listeners a |}.

Definition log_event (e : ConnectorEvent) (a : Ambient) : Ambient :=
  {| world := world a; sdkCalls := sdkCalls a; emitted := emitted a ++ [e];
     listeners := listeners a |}.

Definition log_listener (l : Provider * string * Listener) (a : Ambient) : Ambient :=
  {| world := world a; sdkCalls := sdkCalls a; emitted := emitted a;
     listeners := listeners a ++ [l] |}.

(** *** A state and exception monad for the methods

    A field assignment made before a [throw] stays made, so the state is
    returned in both cases. *)
Definition M (A : Type) : Type := System -> Completion A * System.

Definition ret {A} (a : A) : M A := fun s => (Ok a, s).

Definition throw {A} (e : JsError) : M A := fun s => (Throw e, s).

Definition bind {A B} (m : M A) (k : A -> M B) : M B :=
  fun s =>
    match m s with
    | (Ok a, s') => k a s'
    | (Throw e, s') => (Throw e, s')
    end.

(** [try { m } catch (e) { h e }]. *)
Definition try_catch {A} (m : M A) (h : JsError -> M A) : M A :=
  fun s =>
    match m s with
    | (Ok a, s') => (Ok a, s')
    | (Throw e, s') => h e s'
    end.

Notation "x <- m ;; k" := (bind m (fun x => k))
  (at level 61, m at next level, right associativity).
Notation "m ;;; k" := (bind m (fun _ => k))
  (at level 61, right associativity).

Definition read : M Connector := fun s => (Ok (this s), s).

Definition write (f : Connector -> Connector) : M unit :=
  fun s => (Ok tt, {| this := f (this s); env := env s |}).

(** A call of an SDK operation: it is recorded, runs on the world and leaves
    the world it produces. *)
Definition sdk_call {A} (c : SdkCall) (op : World -> Completion A * World) : M A :=
  fun s =>
    let (r, w') := op (world (env s)) in
    (r, {| this := this s; env := set_world w' (log_call c (env s)) |}).

(** [this.emit(...)], inherited from wagmi's [Connector]. *)
Definition emit (e : ConnectorEvent) : M unit :=
  fun s => (Ok tt, {| this := this s; env := log_event e (env s) |}).

(** [provider.on(event, listener)]. *)
Definition provider_on (p : Provider) (event : string) (l : Listener) : M unit :=
  fun s => (Ok tt, {| this := this s; env := log_listener (p, event, l) (env s) |}).

(** [await p]. *)
Definition await {A} (p : Promise A) : M A :=
  match p with
  | Fulfilled a => ret a
  | Rejected e => throw e
  end.

(** ** [getChain] *)

(** The [switch] compares with strict equality, case by case in order. *)
Definition getChain (chain_name : string) : Completion Chain :=
  if String.eqb chain_name "Ethereum" then Ok mainnet
  else if String.eqb chain_name "Goerli" then Ok goerli
  else if String.eqb chain_name "Polygon" then Ok polygon
  else if String.eqb chain_name "Mumbai" then Ok polygonMumbai
  else if String.eqb chain_name "Avalanche" then Ok avalanche
  else Throw unsupportedChainError.

(** ** The methods *)

(** [getSdk]: the client is built on first use and kept. *)
Definition getSdk : M PaperEmbeddedWalletSdk :=
  fun s =>
    match sdk (this s) with
    | Some k => (Ok k, s)
    | None =>
        let k := {| sdk_options := paperOptions (this s) |} in
        (Ok k, {| this := set_sdk (Some k) (this s);
                  env := log_call (NewSdk (paperOptions (this s))) (env s) |})
    end.

(** [getUser]. *)
Definition getUser : M (option GetUser) :=
  c <- read ;;
  (match user c with
   | None =>
       _ <- getSdk ;;
       userStatus <- sdk_call CallGetUser sdk_getUser ;;
       if UserStatus_eqb (status userStatus) LOGGED_IN_WALLET_INITIALIZED
       then write (set_user (Some userStatus))
       else ret tt
   | Some _ => ret tt
   end) ;;;
  c' <- read ;;
  ret (user c').

(** [getAccount]. *)
Definition getAccount : M Address :=
  u <- getUser ;;
  match u with
  | None => throw notLoggedInError
  | Some user_ =>
      let account := walletAddress user_ in
      ret (if String.prefix "0x" account then account else "0x" ++ account)
  end.

(** [getSigner].  [signerOptions] is built only from a truthy endpoint. *)
Definition getSigner : M Signer :=
  u <- getUser ;;
  match u with
  | None => throw notLoggedInError
  | Some user_ =>
      c <- read ;;
      let signerOptions :=
        match rpcEndpoint c with
        | Some r =>
            if truthy_Networkish r then Some {| opt_rpcEndpoint := r |} else None
        | None => None
        end in
      sdk_call (CallGetEthersJsSigner (wallet user_) signerOptions)
               (wallet_getEthersJsSigner (wallet user_) signerOptions)
  end.

(** [getProvider]: a provider found in the field is returned as it is. *)
Definition getProvider : M Provider :=
  c <- read ;;
  match provider c with
  | Some p => ret p
  | None =>
      signer <- getSigner ;;
      match signer_provider signer with
      | None => throw failedSignerError
      | Some p => write (set_provider (Some p)) ;;; ret p
      end
  end.

(** [this?.emit(...)] in a relay: the connector's own [emit] when [this] is
    the connector, nothing when [this] is [undefined], and otherwise a call
    of the other object's [emit], which emits nothing on the connector. *)
Definition emit_on (this_ : Receiver) (e : ConnectorEvent) : M unit :=
  match this_ with
  | ThisConnector => emit e
  | ThisUndefined => ret tt
  | ThisOther o =>
      match other_emit o with
      | Ok _ => ret tt
      | Throw x => throw x
      end
  end.

(** [onAccountsChanged], run with receiver [this_].  [accounts[0]] is
    undefined for the empty list; a string is falsy when it is empty. *)
Definition onAccountsChanged (this_ : Receiver) (accounts : list Address) : M unit :=
  match nth_error accounts 0 with
  | None => emit_on this_ EvDisconnect
  | Some account =>
      if negb (truthy_string account) then emit_on this_ EvDisconnect
      else emit_on this_ (EvChange (AccountData account))
  end.

(** [onDisconnect], run with receiver [this_]. *)
Definition onDisconnect (this_ : Receiver) (_error : JsError) : M unit :=
  emit_on this_ EvDisconnect.

(** [getChainId] is not [async]: it evaluates [getChain] and wraps the id
    with [Promise.resolve]. *)
Definition getChainId : M (Promise Z) :=
  c <- read ;;
  match getChain (chain (paperOptions c)) with
  | Ok ch => ret (Fulfilled (id ch))
  | Throw e => throw e
  end.

(** [isAuthorized]: [!!user]. *)
Definition isAuthorized : M bool :=
  u <- getUser ;;
  ret (match u with Some _ => true | None => false end).

(** [disconnect]. *)
Definition disconnect : M unit :=
  _ <- getSdk ;;
  _ <- sdk_call CallLogout auth_logout ;;
  write (set_user None).

(** [Number(chainId)]. *)
Definition Number (chainId : ChainIdArg) : option Z :=
  match chainId with
  | ChainIdString s => Number_of_string s
  | ChainIdNumber n => Some n
  end.

(** wagmi's [isChainUnsupported]: no chain of [this.chains] has this id. *)
Definition isChainUnsupported (c : Connector) (chainId : option Z) : bool :=
  negb (existsb (fun x => match chainId with
                          | Some n => Z.eqb (id x) n
                          | None => false
                          end) (chains c)).

(** [this.isChainUnsupported(id)] in a relay.  There is no [?.] here: with
    [this] undefined the property read throws. *)
Definition this_isChainUnsupported (this_ : Receiver) (chainId : option Z) : M bool :=
  match this_ with
  | ThisConnector => c <- read ;; ret (isChainUnsupported c chainId)
  | ThisUndefined => throw undefinedReceiverError
  | ThisOther o =>
      match other_isChainUnsupported o with
      | Ok b => ret b
      | Throw x => throw x
      end
  end.

(** [onChainChanged], run with receiver [this_]. *)
Definition onChainChanged (this_ : Receiver) (chainId : ChainIdArg) : M unit :=
  let id_ := Number chainId in
  unsupported <- this_isChainUnsupported this_ id_ ;;
  emit_on this_ (EvChange (ChainData id_ unsupported)).

(** [connect]. *)
Definition connect : M ConnectorData :=
  isAuthenticated <- isAuthorized ;;
  (if negb isAuthenticated then
     try_catch
       (_ <- getSdk ;;
        resp <- sdk_call CallLoginWithPaperModal auth_loginWithPaperModal ;;
        if negb (UserStatus_eqb (status (resp_user resp)) LOGGED_IN_WALLET_INITIALIZED)
        then throw unexpectedStatusError
        else ret tt)
       (fun e => throw (UserRejectedRequestError e))
   else ret tt) ;;;
  provider_ <- getProvider ;;
  provider_on provider_ "accountsChanged" L_onAccountsChanged ;;;
  provider_on provider_ "chainChanged" L_onChainChanged ;;;
  provider_on provider_ "disconnect" L_onDisconnect ;;;
  p <- getChainId ;;
  id_ <- await p ;;
  account <- getAccount ;;
  ret {| data_provider := provider_;
         data_chain_id := id_;
         data_chain_unsupported := false;
         data_account := account |}.

(** ** The constructor *)

(** [!config.options.clientId]. *)
Definition falsy_clientId (o : PaperConstructorType) : bool :=
  match clientId o with
  | None => true
  | Some s => negb (truthy_string s)
  end.

(** [new PaperEmbeddedWalletWagmiConnector(config)], where [window] tells
    whether [typeof window] is not ["undefined"].  [super(config)] stores
    the configuration; the fields get their values; the SDK is preloaded
    where there is a window. *)
Definition constructor (window : bool)
    (config : PaperEmbeddedWalletWagmiConnectorProps) (a : Ambient)
  : Completion Connector * Ambient :=
  if falsy_clientId (options config) then (Throw noClientIdError, a)
  else
    match getChain (chain (options config)) with
    | Throw e => (Throw e, a)
    | Ok ch =>
        let c := {| ready := window;
                    connector_id := "paper-embedded-wallet";
                    connector_name := "Paper Embedded Wallet";
                    chains := [ch];
                    sdk := None;
                    paperOptions := options config;
                    provider := None;
                    user := None;
                    rpcEndpoint := options_rpcEndpoint (options config) |} in
        let s := {| this := c; env := a |} in
        let s' := if window then snd (getSdk s) else s in
        (Ok (this s'), env s')
    end.

(** ** Runs of the connector *)

(** The calls a user of the connector (or a provider it listens to) makes.
    A call of a relay comes with the receiver it runs with. *)
Inductive Call : Type :=
| CallGetSdk
| CallGetAccount
| CallGetProvider
| CallGetSigner
| CallOnAccountsChanged (this_ : Receiver) (accounts : list Address)
| CallOnDisconnect (this_ : Receiver) (e : JsError)
| CallConnect
| CallGetChainId
| CallIsAuthorized
| CallDisconnect
| CallOnChainChanged (this_ : Receiver) (chainId : ChainIdArg)
| CallGetUserMethod.

(** The state a call leaves, whether it resolves or throws. *)
Definition exec (c : Call) (s : System) : System :=
  match c with
  | CallGetSdk => snd (getSdk s)
  | CallGetAccount => snd (getAccount s)
  | CallGetProvider => snd (getProvider s)
  | CallGetSigner => snd (getSigner s)
  | CallOnAccountsChanged r accounts => snd (onAccountsChanged r accounts s)
  | CallOnDisconnect r e => snd (onDisconnect r e s)
  | CallConnect => snd (connect s)
  | CallGetChainId => snd (getChainId s)
  | CallIsAuthorized => snd (isAuthorized s)
  | CallDisconnect => snd (disconnect s)
  | CallOnChainChanged r chainId => snd (onChainChanged r chainId s)
  | CallGetUserMethod => snd (getUser s)
  end.

(** One step of a run: a call on the connector, or the world behind the SDK
    changing by itself (a session expires, the user logs in elsewhere). *)
Inductive step : System -> System -> Prop :=
| step_call (c : Call) (s : System) : step s (exec c s)
| step_world (w : World) (s : System) :
    step s {| this := this s; env := set_world w (env s) |}.

Inductive steps : System -> System -> Prop :=
| steps_refl (s : System) : steps s s
| steps_next (s1 s2 s3 : System) : steps s1 s2 -> step s2 s3 -> steps s1 s3.

(** The states of a connector built by [constructor window config] in [a]. *)
Definition reachable (window : bool)
    (config : PaperEmbeddedWalletWagmiConnectorProps) (a : Ambient)
    (s : System) : Prop :=
  exists c a', constructor window config a = (Ok c, a')
               /\ steps {| this := c; env := a' |} s.

(** The cached session, when there is one, is an [InitializedUser]. *)
Definition user_initialized (s : System) : Prop :=
  forall u, user (this s) = Some u -> InitializedUser u.

(** A session can be obtained now: one is cached, or the SDK's user query
    resolves with a fully initialized one. *)
Definition session_obtainable (s : System) : Prop :=
  (exists u, user (this s) = Some u /\ InitializedUser u)
  \/ (user (this s) = None
      /\ exists r w', sdk_getUser (world (env s)) = (Ok r, w')
                      /\ InitializedUser r).

(** No session: nothing is cached and the SDK's user query resolves with a
    status other than fully initialized. *)
Definition no_session (s : System) : Prop :=
  user (this s) = None
  /\ exists r w', sdk_getUser (world (env s)) = (Ok r, w')
                  /\ status r <> LOGGED_IN_WALLET_INITIALIZED.

End Model.

Notation "x <- m ;; k" := (bind m (fun x => k))
  (at level 61, m at next level, right associativity).
Notation "m ;;; k" := (bind m (fun _ => k))
  (at level 61, right associativity).

(** ** A concrete SDK and chain registry

    A small implementation of [Externals] on which the statements below are
    evaluated.  Its world says whether the SDK holds a session and how the
    next login prompt will end. *)
Module Demo.

Inductive LoginOutcome : Type :=
| LoginCompletes
| LoginStopsHalfway
| LoginCancelled.

Record DemoWorld : Type := { session : bool; next_login : LoginOutcome }.

Definition alice : GetUser :=
  {| status := LOGGED_IN_WALLET_INITIALIZED; walletAddress := "abc123"; wallet := 1%nat |}.

Definition bob : GetUser :=
  {| status := LOGGED_IN_WALLET_INITIALIZED; walletAddress := "0xdef456"; wallet := 2%nat |}.

Definition nobody : GetUser :=
  {| status := LOGGED_OUT; walletAddress := ""; wallet := 0%nat |}.

Definition halfway : GetUser :=
  {| status := LOGGED_IN_WALLET_UNINITIALIZED; walletAddress := ""; wallet := 0%nat |}.

Definition the_provider : Provider := 7%nat.

(** The provider as the receiver of a relay: it has an [emit] of its own and
    no [isChainUnsupported]. *)
Definition provider_object : OtherObject :=
  {| other_emit := Ok tt;
     other_isChainUnsupported :=
       Throw (TypeError "this.isChainUnsupported is not a function") |}.

Definition demo_getUser (w : DemoWorld) : Completion GetUser * DemoWorld :=
  (Ok (if session w then alice else nobody), w).

Definition demo_login (w : DemoWorld) : Completion AuthLoginReturnType * DemoWorld :=
  match next_login w with
  | LoginCompletes =>
      (Ok {| resp_user := alice |}, {| session := true; next_login := LoginCompletes |})
  | LoginStopsHalfway => (Ok {| resp_user := halfway |}, w)
  | LoginCancelled => (Throw (Error "User closed modal"), w)
  end.

Definition demo_logout (w : DemoWorld) : Completion bool * DemoWorld :=
  (Ok true, {| session := false; next_login := next_login w |}).

Definition demo_getEthersJsSigner (_ : EmbeddedWallet) (_ : option SignerOptions)
    (w : DemoWorld) : Completion Signer * DemoWorld :=
  (Ok {| signer_provider := Some the_provider |}, w).

Definition externals : Externals :=
  {| World := DemoWorld;
     sdk_getUser := demo_getUser;
     auth_loginWithPaperModal := demo_login;
     auth_logout := demo_logout;
     wallet_getEthersJsSigner := demo_getEthersJsSigner;
     mainnet := {| id := 1; name := "Ethereum" |};
     goerli := {| id := 5; name := "Goerli" |};
     polygon := {| id := 137; name := "Polygon" |};
     polygonMumbai := {| id := 80001; name := "Polygon Mumbai" |};
     avalanche := {| id := 43114; name := "Avalanche" |};
     Number_of_string := fun _ => None |}.

Definition config_polygon : PaperEmbeddedWalletWagmiConnectorProps :=
  {| config_chains := None;
     options := {| clientId := Some "client-1";
                   chain := "Polygon";
                   options_rpcEndpoint := None |} |}.

Definition config_no_client : PaperEmbeddedWalletWagmiConnectorProps :=
  {| config_chains := None;
     options := {| clientId := Some "";
                   chain := "Polygon";
                   options_rpcEndpoint := None |} |}.

Definition config_solana : PaperEmbeddedWalletWagmiConnectorProps :=
  {| config_chains := None;
     options := {| clientId := Some "client-1";
                   chain := "Solana";
                   options_rpcEndpoint := None |} |}.

Definition ambient (w : DemoWorld) : Ambient (X := externals) :=
  {| world := (w : @World externals); sdkCalls := []; emitted := []; listeners := [] |}.

Definition signed_out : DemoWorld := {| session := false; next_login := LoginCompletes |}.
Definition signed_in : DemoWorld := {| session := true; next_login := LoginCompletes |}.
Definition stops_halfway : DemoWorld := {| session := false; next_login := LoginStopsHalfway |}.
Definition cancels : DemoWorld := {| session := false; next_login := LoginCancelled |}.

(** The connector built in a browser for Polygon, in world [w]. *)
Definition fresh (w : DemoWorld) : System (X := externals) :=
  let (r, a) := constructor (X := externals) true config_polygon (ambient w) in
  match r with
  | Ok c => {| this := c; env := a |}
  | Throw _ =>
      {| this := {| ready := true; connector_id := ""; connector_name := "";
                    chains := []; sdk := None;
                    paperOptions := options config_polygon; provider := None;
                    user := None; rpcEndpoint := None |};
         env := a |}
  end.

(** The same connector after [connect()] and then [disconnect()]. *)
Definition connected : System (X := externals) :=
  exec (X := externals) CallConnect (fresh signed_out).

Definition disconnected : System (X := externals) :=
  exec (X := externals) CallDisconnect connected.

(** A connector that was never connected, asked for its provider while the
    SDK holds a session, and the same connector after [disconnect()]. *)
Definition with_provider : System (X := externals) :=
  exec (X := externals) CallGetProvider (fresh signed_in).

Definition with_provider_disconnected : System (X := externals) :=
  exec (X := externals) CallDisconnect with_provider.

(** A connected connector whose session has ended behind the SDK, after one
    more call. *)
Definition stale : System (X := externals) :=
  exec (X := externals) CallGetAccount
    {| this := this connected; env := set_world (signed_out : @World externals) (env connected) |}.

(** A connector whose cached session is [bob]. *)
Definition bob_cached : System (X := externals) :=
  {| this := set_user (Some bob) (this (fresh signed_in));
     env := env (fresh signed_in) |}.

End Demo.

Unset Implicit Arguments.

(** ** A concrete SDK that fails

    A second implementation of [Externals].  While [Unreachable], the user
    query, the login and the logout fail.  While [Forgetful], the login
    prompt resolves with an initialized user and the user query goes on
    reporting that nobody is logged in.  Its signers have no provider. *)
Module Flaky.

Inductive FlakyWorld : Type :=
| Unreachable
| Forgetful.

Definition network_error : JsError := Error "Network request failed".

Definition flaky_getUser (w : FlakyWorld) : Completion GetUser * FlakyWorld :=
  match w with
  | Unreachable => (Throw network_error, w)
  | Forgetful => (Ok Demo.nobody, w)
  end.

Definition flaky_login (w : FlakyWorld) : Completion AuthLoginReturnType * FlakyWorld :=
  match w with
  | Unreachable => (Throw network_error, w)
  | Forgetful => (Ok {| resp_user := Demo.alice |}, w)
  end.

Definition flaky_logout (w : FlakyWorld) : Completion bool * FlakyWorld :=
  (Throw network_error, w).

Definition flaky_getEthersJsSigner (_ : EmbeddedWallet) (_ : option SignerOptions)
    (w : FlakyWorld) : Completion Signer * FlakyWorld :=
  (Ok {| signer_provider := None |}, w).

Definition externals : Externals :=
  {| World := FlakyWorld;
     sdk_getUser := flaky_getUser;
     auth_loginWithPaperModal := flaky_login;
     auth_logout := flaky_logout;
     wallet_getEthersJsSigner := flaky_getEthersJsSigner;
     mainnet := {| id := 1; name := "Ethereum" |};
     goerli := {| id := 5; name := "Goerli" |};
     polygon := {| id := 137; name := "Polygon" |};
     polygonMumbai := {| id := 80001; name := "Polygon Mumbai" |};
     avalanche := {| id := 43114; name := "Avalanche" |};
     Number_of_string := fun _ => None |}.

(** Polygon, with the endpoint override set to the empty string. *)
Definition config : PaperEmbeddedWalletWagmiConnectorProps :=
  {| config_chains := None;
     options := {| clientId := Some "client-1";
                   chain := "Polygon";
                   options_rpcEndpoint := Some (NetworkName "") |} |}.

Definition ambient (w : FlakyWorld) : Ambient (X := externals) :=
  {| world := (w : @World externals); sdkCalls := []; emitted := []; listeners := [] |}.

(** The connector built in a browser from [config], in world [w]. *)
Definition fresh (w : FlakyWorld) : System (X := externals) :=
  let (r, a) := constructor (X := externals) true config (ambient w) in
  match r with
  | Ok c => {| this := c; env := a |}
  | Throw _ =>
      {| this := {| ready := true; connector_id := ""; connector_name := "";
                    chains := []; sdk := None;
                    paperOptions := options config; provider := None;
                    user := None; rpcEndpoint := None |};
         env := a |}
  end.

(** The same connector with the session [Demo.alice] in its cache. *)
Definition with_session (w : FlakyWorld) : System (X := externals) :=
  {| this := set_user (Some Demo.alice) (this (fresh w)); env := env (fresh w) |}.

End Flaky.

(** ** Notions used in the proofs *)
Section Notions.

Context {X : Externals}.

(** The state [getUser] leaves after it has queried the SDK and the world
    has become [w'], before any assignment to the [user] field. *)
Definition after_query (s : System) (w' : World) : System :=
  {| this := this (snd (getSdk s));
     env := set_world w' (log_call CallGetUser (env (snd (getSdk s)))) |}.

(** The four ways a call of [getUser] can go. *)
Inductive getUser_cases (s : System) : Prop :=
| gu_cached (u : GetUser) :
    user (this s) = Some u ->
    getUser s = (Ok (Some u), s) -> getUser_cases s
| gu_initialized (r : GetUser) (w' : World) :
    user (this s) = None ->
    sdk_getUser (world (env s)) = (Ok r, w') ->
    status r = LOGGED_IN_WALLET_INITIALIZED ->
    getUser s = (Ok (Some r),
                 {| this := set_user (Some r) (this (after_query s w'));
                    env := env (after_query s w') |}) ->
    getUser_cases s
| gu_other (r : GetUser) (w' : World) :
    user (this s) = None ->
    sdk_getUser (world (env s)) = (Ok r, w') ->
    status r <> LOGGED_IN_WALLET_INITIALIZED ->
    getUser s = (Ok None, after_query s w') -> getUser_cases s
| gu_throws (e : JsError) (w' : World) :
    user (this s) = None ->
    sdk_getUser (world (env s)) = (Throw e, w') ->
    getUser s = (Throw e, after_query s w') -> getUser_cases s.

(** A relation between the connector before and after a call is [stable]
    for a method when every call of the method, resolved or thrown, respects
    it. *)
Definition stable (Rc : Connector -> Connector -> Prop) {A} (m : M A) : Prop :=
  forall s, Rc (this s) (this (snd (m s))).

End Notions.

(** The provider field after a call that does not go through
    [getProvider]'s assignment is the one before. *)
Definition same_provider (c c' : Connector) : Prop := provider c' = provider c.

(** A cached session stays the cached session. *)
Definition keeps_user (c c' : Connector) : Prop :=
  forall u, user c = Some u -> user c' = Some u.

(** The configuration is the same, the SDK client and the provider stay once
    they are there, and the cached session stays an initialized one. *)
Definition keeps (c c' : Connector) : Prop :=
  ready c' = ready c
  /\ connector_id c' = connector_id c
  /\ connector_name c' = connector_name c
  /\ chains c' = chains c
  /\ paperOptions c' = paperOptions c
  /\ rpcEndpoint c' = rpcEndpoint c
  /\ (forall k, sdk c = Some k -> sdk c' = Some k)
  /\ (forall p, provider c = Some p -> provider c' = Some p)
  /\ ((forall u, user c = Some u -> InitializedUser u) ->
      (forall u, user c' = Some u -> InitializedUser u)).

(** ** Notions about the surroundings of the connector *)
Section Surroundings.

Context {X : Externals}.

(** As [stable], for a relation that also sees the surroundings. *)
Definition stable_sys (R : System -> System -> Prop) {A} (m : M A) : Prop :=
  forall s, R s (snd (m s)).

Definition is_NewSdk (c : SdkCall) : bool :=
  match c with NewSdk _ => true | _ => false end.

Definition is_login (c : SdkCall) : bool :=
  match c with CallLoginWithPaperModal => true | _ => false end.

Definition is_logout (c : SdkCall) : bool :=
  match c with CallLogout => true | _ => false end.

(** How many of the SDK calls made so far satisfy [P]. *)
Definition count_calls (P : SdkCall -> bool) (s : System) : nat :=
  length (filter P (sdkCalls (env s))).

(** 1 while the SDK client is still to be built, 0 once it is there. *)
Definition pending_sdk (s : System) : nat :=
  match sdk (this s) with
  | None => 1
  | Some _ => 0
  end.

Definition same_emitted (s s' : System) : Prop :=
  emitted (env s') = emitted (env s).

Definition same_listeners (s s' : System) : Prop :=
  listeners (env s') = listeners (env s).

Definition listeners_grow (s s' : System) : Prop :=
  exists l, listeners (env s') = (listeners (env s) ++ l)%list.

Definition same_count (P : SdkCall -> bool) (s s' : System) : Prop :=
  count_calls P s' = count_calls P s.

(** Clients built so far plus clients still to be built. *)
Definition sdk_budget (s s' : System) : Prop :=
  count_calls is_NewSdk s' + pending_sdk s' =
  count_calls is_NewSdk s + pending_sdk s.

(** The address [getAccount] makes of a wallet address. *)
Definition hex_prefixed (account : string) : Address :=
  if String.prefix "0x" account then account else "0x" ++ account.

(** The [signerOptions] that [getSigner] passes for a connector. *)
Definition signerOptions_of (c : Connector) : option SignerOptions :=
  match rpcEndpoint c with
  | Some r => if truthy_Networkish r then Some {| opt_rpcEndpoint := r |} else None
  | None => None
  end.

(** The three registrations [connect] makes on a provider, in order. *)
Definition connect_listeners (p : Provider) : list (Provider * string * Listener) :=
  [(p, "accountsChanged", L_onAccountsChanged);
   (p, "chainChanged", L_onChainChanged);
   (p, "disconnect", L_onDisconnect)].

(** The surroundings after [connect]'s three registrations, made one
    after the other. *)
Definition registered (p : Provider) (a : Ambient) : Ambient :=
  log_listener (p, "disconnect", L_onDisconnect)
    (log_listener (p, "chainChanged", L_onChainChanged)
       (log_listener (p, "accountsChanged", L_onAccountsChanged) a)).

(** The calls that are event relays. *)
Definition is_relay (c : Call) : bool :=
  match c with
  | CallOnAccountsChanged _ _ | CallOnDisconnect _ _ | CallOnChainChanged _ _ => true
  | _ => false
  end.

(** Runs in which [disconnect] is never called. *)
Inductive steps_without_disconnect : System -> System -> Prop :=
| swd_refl (s : System) : steps_without_disconnect s s
| swd_call (s1 s2 : System) (c : Call) :
    steps_without_disconnect s1 s2 -> c <> CallDisconnect ->
    steps_without_disconnect s1 (exec c s2)
| swd_world (s1 s2 : System) (w : World) :
    steps_without_disconnect s1 s2 ->
    steps_without_disconnect s1 {| this := this s2; env := set_world w (env s2) |}.

End Surroundings.

(** ** Basic facts *)

Lemma UserStatus_eqb_eq (a b : UserStatus) :
  UserStatus_eqb a b = true <-> a = b.
Proof.
  split.
  - destruct a, b; simpl; intro H; try reflexivity; discriminate H.
  - intros ->. destruct b; reflexivity.
Qed.

Lemma UserStatus_eqb_neq (a b : UserStatus) :
  UserStatus_eqb a b = false <-> a <> b.
Proof.
  split.
  - intros H E. apply UserStatus_eqb_eq in E. congruence.
  - intro H. destruct (UserStatus_eqb a b) eqn:E; [|reflexivity].
    apply UserStatus_eqb_eq in E. contradiction.
Qed.

Lemma truthy_string_nonempty (s : string) :
  truthy_string s = true <-> s <> "".
Proof.
  destruct s; simpl; split; intro H; try congruence; try discriminate.
Qed.

Lemma is_Address_truthy (a : Address) :
  is_Address a = true -> truthy_string a = true.
Proof.
  destruct a; simpl; [discriminate | reflexivity].
Qed.

Section Facts.

Context {X : Externals}.

(** *** [getChain] *)

Lemma getChain_supported (n : string) :
  In n supported_chain_names -> exists ch, getChain n = Ok ch.
Proof.
  simpl. intros [H|[H|[H|[H|[H|[]]]]]]; subst n; eexists; reflexivity.
Qed.

Lemma getChain_unsupported (n : string) :
  ~ In n supported_chain_names -> getChain n = Throw unsupportedChainError.
Proof.
  intro H. unfold getChain.
  repeat match goal with
  | |- context [String.eqb n ?k] =>
      destruct (String.eqb_spec n k) as [E|_];
      [exfalso; apply H; rewrite E; simpl; tauto|]
  end.
  reflexivity.
Qed.

Lemma getChain_Ok_supported (n : string) (ch : Chain) :
  getChain n = Ok ch -> In n supported_chain_names.
Proof.
  intro H. unfold getChain in H. simpl.
  repeat match type of H with
  | context [String.eqb n ?k] =>
      destruct (String.eqb_spec n k) as [E|_]; [rewrite E; tauto|]
  end.
  discriminate H.
Qed.

(** *** [getSdk] *)

Lemma getSdk_present (s : System) (k : PaperEmbeddedWalletSdk) :
  sdk (this s) = Some k -> getSdk s = (Ok k, s).
Proof. intro H. unfold getSdk. rewrite H. reflexivity. Qed.

Lemma getSdk_world (s : System) :
  world (env (snd (getSdk s))) = world (env s).
Proof. unfold getSdk. destruct (sdk (this s)); reflexivity. Qed.

Lemma getSdk_user (s : System) :
  user (this (snd (getSdk s))) = user (this s).
Proof. unfold getSdk. destruct (sdk (this s)); reflexivity. Qed.

Lemma getSdk_provider (s : System) :
  provider (this (snd (getSdk s))) = provider (this s).
Proof. unfold getSdk. destruct (sdk (this s)); reflexivity. Qed.

Lemma getSdk_Ok (s : System) : exists k, fst (getSdk s) = Ok k.
Proof. unfold getSdk. destruct (sdk (this s)); eexists; reflexivity. Qed.

(** *** [getUser], case by case *)

Lemma getUser_cached (s : System) (u : GetUser) :
  user (this s) = Some u -> getUser s = (Ok (Some u), s).
Proof.
  intro H. unfold getUser, bind, read, ret. simpl. rewrite H. simpl.
  rewrite H. reflexivity.
Qed.

Lemma getUser_query_initialized (s : System) (r : GetUser) (w' : World) :
  user (this s) = None ->
  sdk_getUser (world (env s)) = (Ok r, w') ->
  status r = LOGGED_IN_WALLET_INITIALIZED ->
  getUser s =
    (Ok (Some r),
     {| this := set_user (Some r) (this (after_query s w'));
        env := env (after_query s w') |}).
Proof.
  intros Hu Hq Hst.
  unfold getUser, bind, read, ret, sdk_call, write, after_query. simpl.
  rewrite Hu.
  destruct (getSdk s) as [[k|e] s1] eqn:Hk.
  - pose proof (getSdk_world s) as Hw. rewrite Hk in Hw. simpl in Hw.
    simpl. rewrite Hw, Hq. simpl.
    apply UserStatus_eqb_eq in Hst. rewrite Hst. reflexivity.
  - destruct (getSdk_Ok s) as [k Hk']. rewrite Hk in Hk'. discriminate Hk'.
Qed.

Lemma getUser_query_other (s : System) (r : GetUser) (w' : World) :
  user (this s) = None ->
  sdk_getUser (world (env s)) = (Ok r, w') ->
  status r <> LOGGED_IN_WALLET_INITIALIZED ->
  getUser s = (Ok None, after_query s w').
Proof.
  intros Hu Hq Hst.
  unfold getUser, bind, read, ret, sdk_call, write, after_query. simpl.
  rewrite Hu.
  pose proof (getSdk_user s) as Hu'.
  destruct (getSdk s) as [[k|e] s1] eqn:Hk.
  - pose proof (getSdk_world s) as Hw. rewrite Hk in Hw. simpl in Hw.
    simpl. rewrite Hw, Hq. simpl.
    apply UserStatus_eqb_neq in Hst. rewrite Hst. simpl.
    simpl in Hu'. rewrite Hu', Hu. reflexivity.
  - destruct (getSdk_Ok s) as [k Hk']. rewrite Hk in Hk'. discriminate Hk'.
Qed.

Lemma getUser_query_throws (s : System) (e : JsError) (w' : World) :
  user (this s) = None ->
  sdk_getUser (world (env s)) = (Throw e, w') ->
  getUser s = (Throw e, after_query s w').
Proof.
  intros Hu Hq.
  unfold getUser, bind, read, ret, sdk_call, write, after_query. simpl.
  rewrite Hu.
  destruct (getSdk s) as [[k|e'] s1] eqn:Hk.
  - pose proof (getSdk_world s) as Hw. rewrite Hk in Hw. simpl in Hw.
    simpl. rewrite Hw, Hq. reflexivity.
  - destruct (getSdk_Ok s) as [k Hk']. rewrite Hk in Hk'. discriminate Hk'.
Qed.

Lemma after_query_user (s : System) (w' : World) :
  user (this (after_query s w')) = user (this s).
Proof. unfold after_query. simpl. apply getSdk_user. Qed.

Lemma after_query_provider (s : System) (w' : World) :
  provider (this (after_query s w')) = provider (this s).
Proof. unfold after_query. simpl. apply getSdk_provider. Qed.

Lemma after_query_world (s : System) (w' : World) :
  world (env (after_query s w')) = w'.
Proof. reflexivity. Qed.

Lemma getUser_inv (s : System) : getUser_cases s.
Proof.
  destruct (user (this s)) as [u|] eqn:Hu.
  - eapply gu_cached; eauto using getUser_cached.
  - destruct (sdk_getUser (world (env s))) as [[r|e] w'] eqn:Hq.
    + destruct (UserStatus_eqb (status r) LOGGED_IN_WALLET_INITIALIZED) eqn:E.
      * apply UserStatus_eqb_eq in E.
        eapply gu_initialized; eauto using getUser_query_initialized.
      * apply UserStatus_eqb_neq in E.
        eapply gu_other; eauto using getUser_query_other.
    + eapply gu_throws; eauto using getUser_query_throws.
Qed.

End Facts.

(** ** What the methods leave alone

    Stability is proved once for an arbitrary preorder that admits the
    field assignments a method makes, and then used at three relations. *)
Section Stable.

Context {X : Externals}.

Variable Rc : Connector -> Connector -> Prop.

Hypothesis Rc_refl : forall c, Rc c c.
Hypothesis Rc_trans : forall a b c, Rc a b -> Rc b c -> Rc a c.

Lemma stable_ret {A} (a : A) : stable Rc (ret a).
Proof. intro s. apply Rc_refl. Qed.

Lemma stable_throw {A} (e : JsError) : stable Rc (throw (A := A) e).
Proof. intro s. apply Rc_refl. Qed.

Lemma stable_read : stable Rc read.
Proof. intro s. apply Rc_refl. Qed.

Lemma stable_bind {A B} (m : M A) (k : A -> M B) :
  stable Rc m -> (forall a, stable Rc (k a)) -> stable Rc (bind m k).
Proof.
  intros Hm Hk s. unfold bind. specialize (Hm s).
  destruct (m s) as [[a|e] s1]; simpl in *.
  - eapply Rc_trans; [exact Hm | apply Hk].
  - exact Hm.
Qed.

Lemma stable_try_catch {A} (m : M A) (h : JsError -> M A) :
  stable Rc m -> (forall e, stable Rc (h e)) -> stable Rc (try_catch m h).
Proof.
  intros Hm Hh s. unfold try_catch. specialize (Hm s).
  destruct (m s) as [[a|e] s1]; simpl in *.
  - exact Hm.
  - eapply Rc_trans; [exact Hm | apply Hh].
Qed.

Lemma stable_await {A} (p : Promise A) : stable Rc (await p).
Proof. destruct p; [apply stable_ret | apply stable_throw]. Qed.

Lemma stable_sdk_call {A} (c : SdkCall) (op : World -> Completion A * World) :
  stable Rc (sdk_call c op).
Proof.
  intro s. unfold sdk_call. destruct (op (world (env s))). apply Rc_refl.
Qed.

Lemma stable_emit (e : ConnectorEvent) : stable Rc (emit e).
Proof. intro s. apply Rc_refl. Qed.

Lemma stable_provider_on (p : Provider) (ev : string) (l : Listener) :
  stable Rc (provider_on p ev l).
Proof. intro s. apply Rc_refl. Qed.

Lemma stable_emit_on (r : Receiver) (e : ConnectorEvent) :
  stable Rc (emit_on r e).
Proof.
  destruct r as [| |o]; simpl.
  - apply stable_emit.
  - apply stable_ret.
  - destruct (other_emit o); [apply stable_ret | apply stable_throw].
Qed.

Lemma stable_onAccountsChanged (r : Receiver) (accounts : list Address) :
  stable Rc (onAccountsChanged r accounts).
Proof.
  unfold onAccountsChanged. destruct (nth_error accounts 0) as [a|].
  - destruct (negb (truthy_string a)); apply stable_emit_on.
  - apply stable_emit_on.
Qed.

Lemma stable_onDisconnect (r : Receiver) (e : JsError) :
  stable Rc (onDisconnect r e).
Proof. apply stable_emit_on. Qed.

Lemma stable_onChainChanged (r : Receiver) (chainId : ChainIdArg) :
  stable Rc (onChainChanged r chainId).
Proof.
  unfold onChainChanged. apply stable_bind; [|intro b; apply stable_emit_on].
  destruct r as [| |o]; simpl.
  - apply stable_bind; [apply stable_read | intro c; apply stable_ret].
  - apply stable_throw.
  - destruct (other_isChainUnsupported o); [apply stable_ret | apply stable_throw].
Qed.

Lemma stable_getChainId : stable Rc getChainId.
Proof.
  unfold getChainId. apply stable_bind; [apply stable_read|].
  intro c. destruct (getChain (chain (paperOptions c)));
    [apply stable_ret | apply stable_throw].
Qed.

(** Building the SDK client fills an empty [sdk] field. *)
Hypothesis Rc_sdk :
  forall c k, sdk c = None -> Rc c (set_sdk (Some k) c).

Lemma stable_getSdk : stable Rc getSdk.
Proof.
  intro s. unfold getSdk. destruct (sdk (this s)) eqn:H; simpl.
  - apply Rc_refl.
  - apply Rc_sdk. exact H.
Qed.

(** [getUser] fills an empty [user] field with an initialized user. *)
Hypothesis Rc_user :
  forall c r, user c = None -> InitializedUser r -> Rc c (set_user (Some r) c).

Lemma stable_getUser : stable Rc getUser.
Proof.
  intro s. destruct (getUser_inv s) as [u Hu E|r w' Hu Hq Hst E|r w' Hu Hq Hst E|e w' Hu Hq E];
    rewrite E; simpl.
  - apply Rc_refl.
  - eapply Rc_trans; [apply (stable_getSdk s)|].
    apply Rc_user; [|exact Hst]. rewrite getSdk_user. exact Hu.
  - apply (stable_getSdk s).
  - apply (stable_getSdk s).
Qed.

Lemma stable_isAuthorized : stable Rc isAuthorized.
Proof.
  unfold isAuthorized. apply stable_bind; [apply stable_getUser|].
  intro u. apply stable_ret.
Qed.

Lemma stable_getAccount : stable Rc getAccount.
Proof.
  unfold getAccount. apply stable_bind; [apply stable_getUser|].
  intros [u|]; [apply stable_ret | apply stable_throw].
Qed.

Lemma stable_getSigner : stable Rc getSigner.
Proof.
  unfold getSigner. apply stable_bind; [apply stable_getUser|].
  intros [u|]; [|apply stable_throw].
  apply stable_bind; [apply stable_read|].
  intro c. apply stable_sdk_call.
Qed.

Lemma stable_login :
  stable Rc
    (try_catch
       (_ <- getSdk ;;
        resp <- sdk_call CallLoginWithPaperModal auth_loginWithPaperModal ;;
        if negb (UserStatus_eqb (status (resp_user resp)) LOGGED_IN_WALLET_INITIALIZED)
        then throw unexpectedStatusError
        else ret tt)
       (fun e => throw (UserRejectedRequestError e))).
Proof.
  apply stable_try_catch; [|intro e; apply stable_throw].
  apply stable_bind; [apply stable_getSdk|]. intros _.
  apply stable_bind; [apply stable_sdk_call|]. intro resp.
  destruct (negb _); [apply stable_throw | apply stable_ret].
Qed.

End Stable.

Lemma same_provider_refl c : same_provider c c.
Proof. reflexivity. Qed.

Lemma same_provider_trans a b c :
  same_provider a b -> same_provider b c -> same_provider a c.
Proof. unfold same_provider. congruence. Qed.

Lemma keeps_user_refl c : keeps_user c c.
Proof. intros u H. exact H. Qed.

Lemma keeps_user_trans a b c : keeps_user a b -> keeps_user b c -> keeps_user a c.
Proof. unfold keeps_user. auto. Qed.

Lemma keeps_refl c : keeps c c.
Proof. unfold keeps. tauto. Qed.

Lemma keeps_trans a b c : keeps a b -> keeps b c -> keeps a c.
Proof.
  unfold keeps.
  intros (A1 & A2 & A3 & A4 & A5 & A6 & A7 & A8 & A9)
         (B1 & B2 & B3 & B4 & B5 & B6 & B7 & B8 & B9).
  repeat split; try congruence; auto.
Qed.

Lemma keeps_set_sdk c k : sdk c = None -> keeps c (set_sdk (Some k) c).
Proof.
  intro H. unfold keeps. simpl. repeat split; auto. congruence.
Qed.

Lemma keeps_set_user c r :
  user c = None -> InitializedUser r -> keeps c (set_user (Some r) c).
Proof.
  intros H Hr. unfold keeps. simpl. repeat split; auto.
  intros _ u E. inversion E. subst u. exact Hr.
Qed.

Lemma keeps_set_provider c p :
  provider c = None -> keeps c (set_provider (Some p) c).
Proof.
  intro H. unfold keeps. simpl. repeat split; auto. congruence.
Qed.

Lemma keeps_clear_user c : keeps c (set_user None c).
Proof.
  unfold keeps. simpl. repeat split; auto. discriminate.
Qed.

Lemma keeps_user_set_sdk c k : keeps_user c (set_sdk (Some k) c).
Proof. intros u H. exact H. Qed.

Lemma keeps_user_set_user c r : user c = None -> keeps_user c (set_user (Some r) c).
Proof. intros H u E. congruence. Qed.

Lemma keeps_user_set_provider c p : keeps_user c (set_provider (Some p) c).
Proof. intros u H. exact H. Qed.

Create HintDb frames.

#[local] Hint Resolve same_provider_refl same_provider_trans
  keeps_user_refl keeps_user_trans keeps_refl keeps_trans
  keeps_set_sdk keeps_set_user keeps_user_set_sdk keeps_user_set_user : frames.

Section Frames.

Context {X : Externals}.

(** [getSigner] does not touch the provider field. *)
Lemma getSigner_same_provider : stable same_provider getSigner.
Proof.
  apply stable_getSigner; eauto with frames; intros; reflexivity.
Qed.

(** [getProvider] respects a preorder that admits filling the three lazily
    set fields. *)
Lemma stable_getProvider (Rc : Connector -> Connector -> Prop) :
  (forall c, Rc c c) ->
  (forall a b c, Rc a b -> Rc b c -> Rc a c) ->
  (forall c k, sdk c = None -> Rc c (set_sdk (Some k) c)) ->
  (forall c r, user c = None -> InitializedUser r -> Rc c (set_user (Some r) c)) ->
  (forall c p, provider c = None -> Rc c (set_provider (Some p) c)) ->
  stable Rc getProvider.
Proof.
  intros Hrefl Htrans Hsdk Huser Hprov s.
  unfold getProvider, bind, read, write, ret, throw. simpl.
  destruct (provider (this s)) as [p|] eqn:Hp; simpl; [apply Hrefl|].
  pose proof (stable_getSigner Rc Hrefl Htrans Hsdk Huser s) as HR.
  pose proof (getSigner_same_provider s) as HP. unfold same_provider in HP.
  destruct (getSigner s) as [[sg|e] s1]; simpl in *; [|exact HR].
  destruct (signer_provider sg) as [p|]; simpl; [|exact HR].
  eapply Htrans; [exact HR|]. apply Hprov. congruence.
Qed.

Lemma stable_connect (Rc : Connector -> Connector -> Prop) :
  (forall c, Rc c c) ->
  (forall a b c, Rc a b -> Rc b c -> Rc a c) ->
  (forall c k, sdk c = None -> Rc c (set_sdk (Some k) c)) ->
  (forall c r, user c = None -> InitializedUser r -> Rc c (set_user (Some r) c)) ->
  (forall c p, provider c = None -> Rc c (set_provider (Some p) c)) ->
  stable Rc connect.
Proof.
  intros Hrefl Htrans Hsdk Huser Hprov.
  unfold connect.
  apply stable_bind; auto using stable_isAuthorized. intro b.
  apply stable_bind; auto.
  { destruct (negb b); [apply stable_login; auto | apply stable_ret; auto]. }
  intros _. apply stable_bind; auto using stable_getProvider. intro p.
  repeat (apply stable_bind; auto using stable_provider_on; intros _).
  apply stable_bind; auto using stable_getChainId. intro pr.
  apply stable_bind; auto using stable_await. intro i.
  apply stable_bind; auto using stable_getAccount. intro a.
  apply stable_ret; auto.
Qed.

Lemma stable_disconnect (Rc : Connector -> Connector -> Prop) :
  (forall c, Rc c c) ->
  (forall a b c, Rc a b -> Rc b c -> Rc a c) ->
  (forall c k, sdk c = None -> Rc c (set_sdk (Some k) c)) ->
  (forall c, Rc c (set_user None c)) ->
  stable Rc disconnect.
Proof.
  intros Hrefl Htrans Hsdk Hclear.
  unfold disconnect.
  apply stable_bind; auto using stable_getSdk. intros _.
  apply stable_bind; auto using stable_sdk_call. intros _.
  intro s. apply Hclear.
Qed.

(** Every call keeps the configuration, the SDK client, the provider and the
    typing of the cached session. *)
Lemma exec_keeps (c : Call) (s : System) : keeps (this s) (this (exec c s)).
Proof.
  destruct c; unfold exec.
  - apply stable_getSdk; eauto with frames.
  - apply stable_getAccount; eauto with frames.
  - apply stable_getProvider; eauto using keeps_set_provider with frames.
  - apply stable_getSigner; eauto with frames.
  - apply stable_onAccountsChanged; eauto with frames.
  - apply stable_onDisconnect; eauto with frames.
  - apply stable_connect; eauto using keeps_set_provider with frames.
  - apply stable_getChainId; eauto with frames.
  - apply stable_isAuthorized; eauto with frames.
  - apply stable_disconnect; eauto using keeps_clear_user with frames.
  - apply stable_onChainChanged; eauto with frames.
  - apply stable_getUser; eauto with frames.
Qed.

(** Every call but [disconnect] keeps the cached session. *)
Lemma exec_keeps_user (c : Call) (s : System) :
  c <> CallDisconnect -> keeps_user (this s) (this (exec c s)).
Proof.
  intro Hc. destruct c; unfold exec; try congruence.
  - apply stable_getSdk; eauto with frames.
  - apply stable_getAccount; eauto with frames.
  - apply stable_getProvider; eauto using keeps_user_set_provider with frames.
  - apply stable_getSigner; eauto with frames.
  - apply stable_onAccountsChanged; eauto with frames.
  - apply stable_onDisconnect; eauto with frames.
  - apply stable_connect; eauto using keeps_user_set_provider with frames.
  - apply stable_getChainId; eauto with frames.
  - apply stable_isAuthorized; eauto with frames.
  - apply stable_onChainChanged; eauto with frames.
  - apply stable_getUser; eauto with frames.
Qed.

Lemma step_keeps (s s' : System) : step s s' -> keeps (this s) (this s').
Proof.
  intros [c s0|w s0]; [apply exec_keeps | apply keeps_refl].
Qed.

Lemma steps_keeps (s s' : System) : steps s s' -> keeps (this s) (this s').
Proof.
  induction 1 as [s|s1 s2 s3 _ IH Hstep].
  - apply keeps_refl.
  - eapply keeps_trans; [exact IH | apply step_keeps; exact Hstep].
Qed.

(** What the constructor builds. *)
Lemma constructor_Ok (window : bool) (config : PaperEmbeddedWalletWagmiConnectorProps)
    (a a' : Ambient) (c : Connector) :
  constructor window config a = (Ok c, a') ->
  user c = None /\ provider c = None
  /\ paperOptions c = options config
  /\ rpcEndpoint c = options_rpcEndpoint (options config)
  /\ ready c = window
  /\ world a' = world a
  /\ exists ch, getChain (chain (options config)) = Ok ch /\ chains c = [ch].
Proof.
  unfold constructor.
  destruct (falsy_clientId (options config)); [discriminate|].
  destruct (getChain (chain (options config))) as [ch|e]; [|discriminate].
  destruct window; simpl; intro H; inversion H; subst; simpl;
    repeat split; eauto.
Qed.

End Frames.

(** ** The accessors without and with a session *)
Section Accessors.

Context {X : Externals}.

Lemma getUser_no_session (s : System) :
  no_session s -> exists w', getUser s = (Ok None, after_query s w').
Proof.
  intros (Hu & r & w' & Hq & Hst). exists w'.
  eapply getUser_query_other; eauto.
Qed.

Lemma getAccount_no_session (s : System) :
  no_session s -> fst (getAccount s) = Throw notLoggedInError.
Proof.
  intro H. destruct (getUser_no_session s H) as [w' E].
  unfold getAccount, bind. rewrite E. reflexivity.
Qed.

Lemma getSigner_no_session (s : System) :
  no_session s -> fst (getSigner s) = Throw notLoggedInError.
Proof.
  intro H. destruct (getUser_no_session s H) as [w' E].
  unfold getSigner, bind. rewrite E. reflexivity.
Qed.

Lemma getProvider_cached (s : System) (p : Provider) :
  provider (this s) = Some p -> getProvider s = (Ok p, s).
Proof.
  intro H. unfold getProvider, bind, read, ret. simpl. rewrite H. reflexivity.
Qed.

Lemma getProvider_no_session (s : System) :
  no_session s -> provider (this s) = None ->
  fst (getProvider s) = Throw notLoggedInError.
Proof.
  intros H Hp. pose proof (getSigner_no_session s H) as E.
  unfold getProvider, bind, read. simpl. rewrite Hp.
  destruct (getSigner s) as [[sg|e] s1]; simpl in E; [discriminate E|].
  simpl. inversion E. reflexivity.
Qed.

(** A resolved [getProvider] leaves the provider in the field. *)
Lemma getProvider_Ok_cached (s s1 : System) (p : Provider) :
  getProvider s = (Ok p, s1) -> provider (this s1) = Some p.
Proof.
  unfold getProvider, bind, read, write, ret, throw. simpl.
  destruct (provider (this s)) as [q|] eqn:Hp.
  - intro H. inversion H. subst. exact Hp.
  - destruct (getSigner s) as [[sg|e] s2]; [|discriminate].
    destruct (signer_provider sg) as [q|]; [|discriminate].
    simpl. intro H. inversion H. subst. reflexivity.
Qed.

Lemma isAuthorized_cached (s : System) (u : GetUser) :
  user (this s) = Some u -> isAuthorized s = (Ok true, s).
Proof.
  intro H. unfold isAuthorized, bind. rewrite (getUser_cached s u H). reflexivity.
Qed.

Lemma isAuthorized_query (s : System) (r : GetUser) (w' : World) :
  user (this s) = None ->
  sdk_getUser (world (env s)) = (Ok r, w') ->
  fst (isAuthorized s) =
    Ok (UserStatus_eqb (status r) LOGGED_IN_WALLET_INITIALIZED).
Proof.
  intros Hu Hq. unfold isAuthorized, bind.
  destruct (UserStatus_eqb (status r) LOGGED_IN_WALLET_INITIALIZED) eqn:E.
  - apply UserStatus_eqb_eq in E.
    rewrite (getUser_query_initialized s r w' Hu Hq E). reflexivity.
  - apply UserStatus_eqb_neq in E.
    rewrite (getUser_query_other s r w' Hu Hq E). reflexivity.
Qed.

Lemma isAuthorized_query_throws (s : System) (e : JsError) (w' : World) :
  user (this s) = None ->
  sdk_getUser (world (env s)) = (Throw e, w') ->
  fst (isAuthorized s) = Throw e.
Proof.
  intros Hu Hq. unfold isAuthorized, bind.
  rewrite (getUser_query_throws s e w' Hu Hq). reflexivity.
Qed.

(** After [isAuthorized] has answered false nothing is cached. *)
Lemma isAuthorized_false (s s1 : System) :
  isAuthorized s = (Ok false, s1) ->
  user (this s) = None /\ user (this s1) = None
  /\ exists r w', sdk_getUser (world (env s)) = (Ok r, w')
                  /\ status r <> LOGGED_IN_WALLET_INITIALIZED
                  /\ s1 = after_query s w'.
Proof.
  unfold isAuthorized, bind.
  destruct (getUser_inv s) as [u Hu E|r w' Hu Hq Hst E|r w' Hu Hq Hst E|e w' Hu Hq E];
    rewrite E; intro H; try discriminate H.
  inversion H. subst s1. split; [exact Hu|]. split.
  - rewrite after_query_user. exact Hu.
  - eauto 6.
Qed.

Lemma hex_prefix_added (a : string) : String.prefix "0x" ("0x" ++ a) = true.
Proof.
  simpl. destruct (ascii_dec "0" "0") as [_|n]; [|congruence].
  destruct (ascii_dec "x" "x") as [_|n]; [|congruence].
  destruct a; reflexivity.
Qed.

End Accessors.

(** ** The claims *)
Section Claims.

Context {X : Externals}.

(** C1 (amended).  When no session exists (nothing is cached and the
    SDK's user query resolves with a status other than fully initialized),
    [getAccount()] and [getSigner()] reject with the error that tells the
    caller to connect first, and so does [getProvider()] when no provider is
    cached, as on a connector that was just constructed; a cached provider
    is returned by [getProvider()] instead, with the state unchanged. *)
Theorem C1_accessors_without_session (s : System) :
  no_session s ->
  fst (getAccount s) = Throw notLoggedInError
  /\ fst (getSigner s) = Throw notLoggedInError
  /\ (provider (this s) = None -> fst (getProvider s) = Throw notLoggedInError)
  /\ (forall p, provider (this s) = Some p -> getProvider s = (Ok p, s))
  /\ (forall window config a c a',
        constructor window config a = (Ok c, a') ->
        s = {| this := c; env := a' |} ->
        fst (getProvider s) = Throw notLoggedInError).
Proof.
  intro H. split; [|split; [|split; [|split]]].
  - apply getAccount_no_session. exact H.
  - apply getSigner_no_session. exact H.
  - intro Hp. apply getProvider_no_session; assumption.
  - intros p Hp. apply getProvider_cached. exact Hp.
  - intros window config a c a' Hc Hs.
    destruct (constructor_Ok _ _ _ _ _ Hc) as (_ & Hp & _).
    apply getProvider_no_session; [exact H|]. rewrite Hs. exact Hp.
Qed.

(** C2.  For every session (cached, or fetched by this call) [getAccount()]
    resolves with the session's wallet address in hex-prefixed form: the
    address itself when it starts with 0x, and 0x followed by the address
    otherwise. *)
Theorem C2_getAccount_hex_prefixed (s s' : System) (u : GetUser) :
  getUser s = (Ok (Some u), s') ->
  exists r : Address,
    getAccount s = (Ok r, s')
    /\ is_Address r = true
    /\ (String.prefix "0x" (walletAddress u) = true -> r = walletAddress u)
    /\ (String.prefix "0x" (walletAddress u) = false ->
        r = "0x" ++ walletAddress u).
Proof.
  intro H. unfold getAccount, bind. rewrite H. unfold ret.
  destruct (String.prefix "0x" (walletAddress u)) eqn:E.
  - exists (walletAddress u). repeat split; auto. discriminate.
  - exists ("0x" ++ walletAddress u). repeat split; auto.
    + apply hex_prefix_added.
    + discriminate.
Qed.

(** C3.  With an absent or empty client id, and likewise with a chain name
    outside Ethereum, Goerli, Polygon, Mumbai and Avalanche, the constructor
    throws a configuration error and leaves the surroundings as they were:
    no SDK client is built, no SDK call is made, the world is untouched. *)
Theorem C3_constructor_rejects_bad_configuration (window : bool)
    (config : PaperEmbeddedWalletWagmiConnectorProps) (a : Ambient) :
  clientId (options config) = None
  \/ clientId (options config) = Some ""
  \/ ~ In (chain (options config)) supported_chain_names ->
  exists e,
    constructor window config a = (Throw e, a)
    /\ (e = noClientIdError \/ e = unsupportedChainError)
    /\ (clientId (options config) = None \/ clientId (options config) = Some ""
        -> e = noClientIdError)
    /\ (falsy_clientId (options config) = false -> e = unsupportedChainError).
Proof.
  intro H. unfold constructor.
  destruct (falsy_clientId (options config)) eqn:F.
  - exists noClientIdError. repeat split; auto. discriminate.
  - assert (Hc : ~ In (chain (options config)) supported_chain_names).
    { unfold falsy_clientId in F.
      destruct H as [H|[H|H]]; [rewrite H in F; discriminate F
                               |rewrite H in F; discriminate F|exact H]. }
    rewrite (getChain_unsupported _ Hc).
    exists unsupportedChainError. repeat split; auto.
    unfold falsy_clientId in F.
    intros [E|E]; rewrite E in F; discriminate F.
Qed.

(** C4.  When the connector is not authorized and the login prompt resolves
    with a user whose status is not fully initialized, [connect()] rejects
    with a [UserRejectedRequestError] wrapping the unexpected-status error;
    when the login itself fails, [connect()] rejects with a
    [UserRejectedRequestError] wrapping that failure.  In both cases the
    connector is as it was after the authorization check and building the
    SDK client: no session is cached, and a later [isAuthorized()] answers
    what the SDK's user query then reports. *)
Theorem C4_failed_login_rejects (s s1 : System)
    (res : Completion AuthLoginReturnType) (w : World) :
  isAuthorized s = (Ok false, s1) ->
  auth_loginWithPaperModal (world (env (snd (getSdk s1)))) = (res, w) ->
  match res with
  | Ok resp => status (resp_user resp) <> LOGGED_IN_WALLET_INITIALIZED
  | Throw _ => True
  end ->
  let s3 := {| this := this (snd (getSdk s1));
               env := set_world w (log_call CallLoginWithPaperModal
                                             (env (snd (getSdk s1)))) |} in
  connect s =
    (Throw (UserRejectedRequestError
              match res with
              | Ok _ => unexpectedStatusError
              | Throw e => e
              end), s3)
  /\ user (this s3) = None
  /\ provider (this s3) = provider (this s)
  /\ (forall r w', sdk_getUser w = (Ok r, w') ->
        fst (isAuthorized s3) =
          Ok (UserStatus_eqb (status r) LOGGED_IN_WALLET_INITIALIZED)).
Proof.
  intros Hauth Hlogin Hres s3.
  destruct (isAuthorized_false s s1 Hauth) as (Hu & Hu1 & r0 & w0 & Hq0 & Hst0 & Hs1).
  assert (Hu3 : user (this s3) = None).
  { unfold s3. simpl. rewrite getSdk_user. exact Hu1. }
  split; [|split; [exact Hu3|split]].
  - unfold connect, bind at 1. rewrite Hauth. simpl negb. cbv iota.
    unfold bind at 1. unfold try_catch, bind at 1.
    unfold s3. clear s3 Hu3.
    destruct (getSdk s1) as [[k|e] s2] eqn:Hk.
    + simpl in Hlogin |- *. unfold bind at 1, sdk_call at 1.
      rewrite Hlogin.
      destruct res as [resp|e].
      * apply UserStatus_eqb_neq in Hres. rewrite Hres. reflexivity.
      * reflexivity.
    + destruct (getSdk_Ok s1) as [k Hk']. rewrite Hk in Hk'. discriminate Hk'.
  - unfold s3. simpl. rewrite getSdk_provider. subst s1.
    apply after_query_provider.
  - intros r w' Hq. apply isAuthorized_query with (w' := w'); [exact Hu3|].
    unfold s3. simpl. exact Hq.
Qed.

(** C5 (amended).  [isAuthorized()] resolves with true exactly when a
    session can be obtained now, cached or fetched from the SDK with fully
    initialized status.  With nothing cached, as in a freshly constructed
    connector, it resolves with what the SDK's user query reports: false
    for a status other than fully initialized, true when the SDK already
    holds a fully initialized session, whether or not [connect()] was ever
    called. *)
Theorem C5_isAuthorized_iff_session (s : System) :
  user_initialized s ->
  (fst (isAuthorized s) = Ok true <-> session_obtainable s)
  /\ (user (this s) = None ->
      forall r w', sdk_getUser (world (env s)) = (Ok r, w') ->
        fst (isAuthorized s) =
          Ok (UserStatus_eqb (status r) LOGGED_IN_WALLET_INITIALIZED))
  /\ (forall window config a c a',
        constructor window config a = (Ok c, a') ->
        s = {| this := c; env := a' |} ->
        forall r w', sdk_getUser (world a) = (Ok r, w') ->
          fst (isAuthorized s) =
            Ok (UserStatus_eqb (status r) LOGGED_IN_WALLET_INITIALIZED)).
Proof.
  intro Hinv. split; [|split].
  - destruct (user (this s)) as [u|] eqn:Hu.
    + rewrite (isAuthorized_cached s u Hu). simpl. split; [|reflexivity].
      intros _. left. exists u. split; [exact Hu | apply Hinv; exact Hu].
    + destruct (sdk_getUser (world (env s))) as [[r|e] w'] eqn:Hq.
      * rewrite (isAuthorized_query s r w' Hu Hq). split.
        -- intro H. inversion H as [E]. apply UserStatus_eqb_eq in E.
           right. split; [exact Hu|]. exists r, w'. split; [exact Hq | exact E].
        -- intros [(u & Hu' & _)|(_ & r' & w'' & Hq' & Hr')].
           ++ congruence.
           ++ rewrite Hq in Hq'. inversion Hq'. subst r'.
              apply UserStatus_eqb_eq in Hr'. rewrite Hr'. reflexivity.
      * rewrite (isAuthorized_query_throws s e w' Hu Hq). split.
        -- discriminate.
        -- intros [(u & Hu' & _)|(_ & r' & w'' & Hq' & _)].
           ++ congruence.
           ++ rewrite Hq in Hq'. discriminate Hq'.
  - intros Hu r w' Hq. apply isAuthorized_query with (w' := w'); assumption.
  - intros window config a c a' Hc Hs r w' Hq.
    destruct (constructor_Ok _ _ _ _ _ Hc) as (Hu & _ & _ & _ & _ & Hw & _).
    apply isAuthorized_query with (w' := w'); rewrite Hs; simpl.
    + exact Hu.
    + rewrite Hw. exact Hq.
Qed.

(** C6.  A [disconnect()] that resolves has called the SDK's logout, as its
    last SDK call, and has cleared the cached session; when the SDK's user
    query after that logout reports a status other than fully initialized, a
    following [isAuthorized()] resolves with false and a following
    [getAccount()] rejects with the error that tells the caller to connect
    first. *)
Theorem C6_disconnect_clears_session (s s' : System) :
  disconnect s = (Ok tt, s') ->
  sdkCalls (env s') = (sdkCalls (env (snd (getSdk s))) ++ [CallLogout])%list
  /\ user (this s') = None
  /\ (forall r w',
        sdk_getUser (world (env s')) = (Ok r, w') ->
        status r <> LOGGED_IN_WALLET_INITIALIZED ->
        fst (isAuthorized s') = Ok false
        /\ fst (getAccount s') = Throw notLoggedInError).
Proof.
  unfold disconnect, bind, sdk_call, write.
  destruct (getSdk s) as [[k|e] s1] eqn:Hk; [|discriminate].
  destruct (auth_logout (world (env s1))) as [[b|e] w1] eqn:Hl; [|discriminate].
  simpl. intro H. inversion H. subst s'. clear H. simpl.
  split; [reflexivity|]. split; [reflexivity|].
  intros r w' Hq Hst. split.
  - rewrite (isAuthorized_query _ r w'); [|reflexivity|exact Hq].
    apply UserStatus_eqb_neq in Hst. rewrite Hst. reflexivity.
  - apply getAccount_no_session. split; [reflexivity|].
    exists r, w'. split; [exact Hq | exact Hst].
Qed.

(** What an account-change relay does when it is called on the connector
    with a list of addresses: exactly one event, [disconnect] for the empty
    list and [change] with the first account otherwise. *)
Lemma onAccountsChanged_on_connector (accounts : list Address) (s : System) :
  Forall (fun a => is_Address a = true) accounts ->
  onAccountsChanged ThisConnector accounts s =
    (Ok tt,
     {| this := this s;
        env := log_event
                 match accounts with
                 | [] => EvDisconnect
                 | account :: _ => EvChange (AccountData account)
                 end (env s) |}).
Proof.
  intro H. unfold onAccountsChanged. destruct accounts as [|a rest]; simpl.
  - reflexivity.
  - inversion H as [|a' l' Ha Hrest]. subst.
    rewrite (is_Address_truthy a Ha). reflexivity.
Qed.

(** [this?.emit] with a receiver other than the connector emits nothing on
    the connector and changes nothing. *)
Lemma emit_on_unbound (r : Receiver) (e : ConnectorEvent) (s : System) :
  unbound r = true -> snd (emit_on r e s) = s.
Proof.
  destruct r as [| |o]; simpl; intro H; [discriminate H|reflexivity|].
  destruct (other_emit o); reflexivity.
Qed.

(** A relay that is not run on the connector leaves the state as it is: in
    particular the connector emits nothing. *)
Lemma relay_unbound (r : Receiver) (s : System) :
  unbound r = true ->
  (forall accounts, snd (onAccountsChanged r accounts s) = s)
  /\ (forall e, snd (onDisconnect r e s) = s)
  /\ (forall chainId, snd (onChainChanged r chainId s) = s).
Proof.
  intro H. split; [|split].
  - intro accounts. unfold onAccountsChanged.
    destruct (nth_error accounts 0) as [a|]; [|apply emit_on_unbound; exact H].
    destruct (negb (truthy_string a)); apply emit_on_unbound; exact H.
  - intro e. apply emit_on_unbound. exact H.
  - intro chainId. unfold onChainChanged, bind.
    destruct r as [| |o]; simpl in *; [discriminate H|reflexivity|].
    destruct (other_isChainUnsupported o); simpl; [|reflexivity].
    destruct (other_emit o); reflexivity.
Qed.

(** The cached session of a connector, in every state it can reach, is an
    initialized user. *)
Lemma reachable_user_initialized (window : bool)
    (config : PaperEmbeddedWalletWagmiConnectorProps) (a : Ambient) (s : System) :
  reachable window config a s -> user_initialized s.
Proof.
  intros (c & a' & Hc & Hsteps).
  destruct (constructor_Ok _ _ _ _ _ Hc) as (Hu & _).
  pose proof (steps_keeps _ _ Hsteps) as K. unfold keeps in K.
  destruct K as (_ & _ & _ & _ & _ & _ & _ & _ & K).
  unfold user_initialized. apply K. simpl. intros u E. congruence.
Qed.

(** C8.  In every state a connector can reach: the cached session, if any,
    is fully initialized; [getUser] returns a cached session without asking
    the SDK and without changing anything; with nothing cached it asks the
    SDK once and caches and returns the answer when its status is fully
    initialized, and otherwise returns nothing and caches nothing; and no
    call other than [disconnect], and no change of the world behind the SDK,
    removes or replaces a cached session. *)
Theorem C8_getUser_memoized (window : bool)
    (config : PaperEmbeddedWalletWagmiConnectorProps) (a : Ambient) (s : System) :
  reachable window config a s ->
  user_initialized s
  /\ (forall u, user (this s) = Some u -> getUser s = (Ok (Some u), s))
  /\ (user (this s) = None ->
      forall r w', sdk_getUser (world (env s)) = (Ok r, w') ->
      exists s',
        getUser s =
          (Ok (if UserStatus_eqb (status r) LOGGED_IN_WALLET_INITIALIZED
               then Some r else None), s')
        /\ user (this s') =
             (if UserStatus_eqb (status r) LOGGED_IN_WALLET_INITIALIZED
              then Some r else None)
        /\ sdkCalls (env s') = (sdkCalls (env (snd (getSdk s))) ++ [CallGetUser])%list)
  /\ (forall c u, c <> CallDisconnect ->
        user (this s) = Some u -> user (this (exec c s)) = Some u)
  /\ (forall s' u, step s s' ->
        user (this s) = Some u ->
        user (this s') = Some u \/ s' = exec CallDisconnect s).
Proof.
  intro Hreach. split; [|split; [|split; [|split]]].
  - eapply reachable_user_initialized. exact Hreach.
  - intros u Hu. apply getUser_cached. exact Hu.
  - intros Hu r w' Hq.
    destruct (UserStatus_eqb (status r) LOGGED_IN_WALLET_INITIALIZED) eqn:E.
    + apply UserStatus_eqb_eq in E.
      eexists. split; [apply (getUser_query_initialized s r w' Hu Hq E)|].
      split; reflexivity.
    + apply UserStatus_eqb_neq in E.
      eexists. split; [apply (getUser_query_other s r w' Hu Hq E)|].
      split; [|reflexivity].
      rewrite after_query_user. exact Hu.
  - intros c u Hc Hu. apply (exec_keeps_user c s Hc). exact Hu.
  - intros s' u Hstep Hu. destruct Hstep as [c s0|w s0].
    + destruct c; try (left; eapply exec_keeps_user; [discriminate|exact Hu]).
      right. reflexivity.
    + left. exact Hu.
Qed.

(** C9.  In every state a connector can reach, [getChainId()] returns an
    already fulfilled promise of the id of the chain that [getChain] gives
    for the chain name of the configuration the connector was built from; it
    leaves the state as it is, so it makes no SDK call, and the answer does
    not depend on the session or on the world behind the SDK. *)
Theorem C9_getChainId_static (window : bool)
    (config : PaperEmbeddedWalletWagmiConnectorProps) (a : Ambient) (s : System) :
  reachable window config a s ->
  exists ch,
    getChain (chain (options config)) = Ok ch
    /\ getChainId s = (Ok (Fulfilled (id ch)), s).
Proof.
  intros (c & a' & Hc & Hsteps).
  destruct (constructor_Ok _ _ _ _ _ Hc) as (_ & _ & Hopt & _ & _ & _ & ch & Hch & _).
  pose proof (steps_keeps _ _ Hsteps) as K. unfold keeps in K.
  destruct K as (_ & _ & _ & _ & K & _). simpl in K.
  exists ch. split; [exact Hch|].
  unfold getChainId, bind, read, ret. simpl.
  rewrite K, Hopt, Hch. reflexivity.
Qed.

(** C10.  Once [getProvider()] has resolved with a provider, every later
    [getProvider()], after any calls on the connector and any changes of the
    world, resolves with that provider and leaves the state as it is: no SDK
    call and no session check is made.  That includes after [disconnect()]:
    [disconnect()] leaves the provider field and the registered listeners
    unchanged, and of the connector's fields it assigns only the cached
    session, apart from building the SDK client if there was none. *)
Theorem C10_cached_provider_survives (s s1 s2 : System) (p : Provider) :
  getProvider s = (Ok p, s1) ->
  steps s1 s2 ->
  getProvider s2 = (Ok p, s2)
  /\ (forall s3, s3 = snd (disconnect s2) ->
        provider (this s3) = Some p
        /\ listeners (env s3) = listeners (env s2)
        /\ emitted (env s3) = emitted (env s2)
        /\ this s3 = set_user (user (this s3)) (this (snd (getSdk s2)))
        /\ (forall k, sdk (this s2) = Some k ->
              this s3 = set_user (user (this s3)) (this s2))
        /\ getProvider s3 = (Ok p, s3)).
Proof.
  intros Hget Hsteps.
  pose proof (getProvider_Ok_cached _ _ _ Hget) as Hp1.
  pose proof (steps_keeps _ _ Hsteps) as K. unfold keeps in K.
  destruct K as (_ & _ & _ & _ & _ & _ & _ & K & _).
  pose proof (K p Hp1) as Hp2.
  split; [apply getProvider_cached; exact Hp2|].
  intros s3 Hs3.
  assert (Hframe : provider (this s3) = provider (this s2)
                   /\ listeners (env s3) = listeners (env s2)
                   /\ emitted (env s3) = emitted (env s2)
                   /\ this s3 = set_user (user (this s3)) (this (snd (getSdk s2)))).
  { subst s3. unfold disconnect, bind, sdk_call, write.
    pose proof (getSdk_provider s2) as Hprov.
    assert (Hl : listeners (env (snd (getSdk s2))) = listeners (env s2)
                 /\ emitted (env (snd (getSdk s2))) = emitted (env s2)).
    { unfold getSdk. destruct (sdk (this s2)); split; reflexivity. }
    destruct Hl as [Hl He].
    destruct (getSdk s2) as [[k|e] s'] eqn:Hk; simpl in *.
    - destruct (auth_logout (world (env s'))) as [[b|e] w1]; simpl;
        repeat split; auto.
      destruct (this s'); reflexivity.
    - repeat split; auto. destruct (this s'); reflexivity. }
  destruct Hframe as (F1 & F2 & F3 & F4).
  assert (Hp3 : provider (this s3) = Some p) by congruence.
  repeat split; auto.
  - intros k Hk. rewrite F4 at 1. rewrite (getSdk_present s2 k Hk). reflexivity.
  - apply getProvider_cached. exact Hp3.
Qed.

End Claims.

(** ** What the methods leave alone in their surroundings

    The same scheme as for [stable], for preorders on the whole state.  A
    method is stable for [R] when [R] admits the SDK calls it makes
    ([allowed]), building the SDK client, assignments to fields other than
    [sdk], and, where the method does them, emitting and registering. *)
Section StableSys.

Context {X : Externals}.

Variable R : System -> System -> Prop.

Hypothesis R_refl : forall s, R s s.
Hypothesis R_trans : forall a b c, R a b -> R b c -> R a c.

Lemma sys_ret {A} (a : A) : stable_sys R (ret a).
Proof. intro s. apply R_refl. Qed.

Lemma sys_throw {A} (e : JsError) : stable_sys R (throw (A := A) e).
Proof. intro s. apply R_refl. Qed.

Lemma sys_read : stable_sys R read.
Proof. intro s. apply R_refl. Qed.

Lemma sys_bind {A B} (m : M A) (k : A -> M B) :
  stable_sys R m -> (forall a, stable_sys R (k a)) -> stable_sys R (bind m k).
Proof.
  intros Hm Hk s. unfold bind. specialize (Hm s).
  destruct (m s) as [[a|e] s1]; simpl in *.
  - eapply R_trans; [exact Hm | apply Hk].
  - exact Hm.
Qed.

Lemma sys_try_catch {A} (m : M A) (h : JsError -> M A) :
  stable_sys R m -> (forall e, stable_sys R (h e)) -> stable_sys R (try_catch m h).
Proof.
  intros Hm Hh s. unfold try_catch. specialize (Hm s).
  destruct (m s) as [[a|e] s1]; simpl in *.
  - exact Hm.
  - eapply R_trans; [exact Hm | apply Hh].
Qed.

Lemma sys_await {A} (p : Promise A) : stable_sys R (await p).
Proof. destruct p; [apply sys_ret | apply sys_throw]. Qed.

Lemma sys_getChainId : stable_sys R getChainId.
Proof.
  unfold getChainId. apply sys_bind; [apply sys_read|].
  intro c. destruct (getChain (chain (paperOptions c)));
    [apply sys_ret | apply sys_throw].
Qed.

Variable allowed : SdkCall -> bool.

Hypothesis R_call :
  forall s c w, allowed c = true ->
    R s {| this := this s; env := set_world w (log_call c (env s)) |}.

Lemma sys_sdk_call {A} (c : SdkCall) (op : World -> Completion A * World) :
  allowed c = true -> stable_sys R (sdk_call c op).
Proof.
  intros Hc s. unfold sdk_call. destruct (op (world (env s))) as [r w].
  simpl. apply R_call. exact Hc.
Qed.

Hypothesis R_getSdk : forall s, R s (snd (getSdk s)).

Hypothesis R_set_user :
  forall s v, R s {| this := set_user v (this s); env := env s |}.

Hypothesis R_set_provider :
  forall s v, R s {| this := set_provider v (this s); env := env s |}.

Lemma sys_write_user (v : option GetUser) : stable_sys R (write (set_user v)).
Proof. intro s. unfold write. simpl. apply R_set_user. Qed.

Lemma sys_write_provider (v : option Provider) :
  stable_sys R (write (set_provider v)).
Proof. intro s. unfold write. simpl. apply R_set_provider. Qed.

Hypothesis allowed_getUser : allowed CallGetUser = true.

Lemma sys_getUser : stable_sys R getUser.
Proof.
  unfold getUser. apply sys_bind; [apply sys_read|]. intro c.
  apply sys_bind; [|intros _; apply sys_bind; [apply sys_read|intro; apply sys_ret]].
  destruct (user c); [apply sys_ret|].
  apply sys_bind; [exact R_getSdk|]. intros _.
  apply sys_bind; [apply sys_sdk_call; exact allowed_getUser|]. intro r.
  destruct (UserStatus_eqb _ _); [apply sys_write_user | apply sys_ret].
Qed.

Lemma sys_isAuthorized : stable_sys R isAuthorized.
Proof.
  unfold isAuthorized. apply sys_bind; [apply sys_getUser|].
  intro u. apply sys_ret.
Qed.

Lemma sys_getAccount : stable_sys R getAccount.
Proof.
  unfold getAccount. apply sys_bind; [apply sys_getUser|].
  intros [u|]; [apply sys_ret | apply sys_throw].
Qed.

Hypothesis allowed_getSigner :
  forall w o, allowed (CallGetEthersJsSigner w o) = true.

Lemma sys_getSigner : stable_sys R getSigner.
Proof.
  unfold getSigner. apply sys_bind; [apply sys_getUser|].
  intros [u|]; [|apply sys_throw].
  apply sys_bind; [apply sys_read|].
  intro c. apply sys_sdk_call. apply allowed_getSigner.
Qed.

Lemma sys_getProvider : stable_sys R getProvider.
Proof.
  unfold getProvider. apply sys_bind; [apply sys_read|]. intro c.
  destruct (provider c); [apply sys_ret|].
  apply sys_bind; [apply sys_getSigner|]. intro sg.
  destruct (signer_provider sg); [|apply sys_throw].
  apply sys_bind; [apply sys_write_provider|]. intros _. apply sys_ret.
Qed.

(** What [connect] does once the login step is behind it, when registering
    listeners is admitted. *)
Lemma sys_after_login :
  (forall s l, R s {| this := this s; env := log_listener l (env s) |}) ->
  stable_sys R
    (provider_ <- getProvider ;;
     provider_on provider_ "accountsChanged" L_onAccountsChanged ;;;
     provider_on provider_ "chainChanged" L_onChainChanged ;;;
     provider_on provider_ "disconnect" L_onDisconnect ;;;
     p <- getChainId ;;
     id_ <- await p ;;
     account <- getAccount ;;
     ret {| data_provider := provider_;
            data_chain_id := id_;
            data_chain_unsupported := false;
            data_account := account |}).
Proof.
  intro R_listen.
  assert (Hon : forall p ev l, stable_sys R (provider_on p ev l)).
  { intros p ev l s. unfold provider_on. simpl. apply R_listen. }
  apply sys_bind; [apply sys_getProvider|]. intro p.
  do 3 (apply sys_bind; [apply Hon|]; intros _).
  apply sys_bind; [apply sys_getChainId|]. intro pr.
  apply sys_bind; [apply sys_await|]. intro i.
  apply sys_bind; [apply sys_getAccount|]. intro a.
  apply sys_ret.
Qed.

Lemma sys_connect :
  allowed CallLoginWithPaperModal = true ->
  (forall s l, R s {| this := this s; env := log_listener l (env s) |}) ->
  stable_sys R connect.
Proof.
  intros Hlogin R_listen. unfold connect.
  apply sys_bind; [apply sys_isAuthorized|]. intro b.
  apply sys_bind; [|intros _; apply sys_after_login; exact R_listen].
  destruct (negb b); [|apply sys_ret].
  apply sys_try_catch; [|intro e; apply sys_throw].
  apply sys_bind; [exact R_getSdk|]. intros _.
  apply sys_bind; [apply sys_sdk_call; exact Hlogin|]. intro resp.
  destruct (negb _); [apply sys_throw | apply sys_ret].
Qed.

Lemma sys_disconnect :
  allowed CallLogout = true -> stable_sys R disconnect.
Proof.
  intro Hlogout. unfold disconnect.
  apply sys_bind; [exact R_getSdk|]. intros _.
  apply sys_bind; [apply sys_sdk_call; exact Hlogout|]. intros _.
  apply sys_write_user.
Qed.

Lemma sys_relays :
  (forall s e, R s {| this := this s; env := log_event e (env s) |}) ->
  (forall r accounts, stable_sys R (onAccountsChanged r accounts))
  /\ (forall r e, stable_sys R (onDisconnect r e))
  /\ (forall r chainId, stable_sys R (onChainChanged r chainId)).
Proof.
  intro R_emit.
  assert (He : forall r e, stable_sys R (emit_on r e)).
  { intros r e. destruct r as [| |o]; simpl.
    - intro s. unfold emit. simpl. apply R_emit.
    - apply sys_ret.
    - destruct (other_emit o); [apply sys_ret | apply sys_throw]. }
  split; [|split].
  - intros r accounts. unfold onAccountsChanged.
    destruct (nth_error accounts 0) as [a|]; [|apply He].
    destruct (negb (truthy_string a)); apply He.
  - intros r e. apply He.
  - intros r chainId. unfold onChainChanged.
    apply sys_bind; [|intro b; apply He].
    destruct r as [| |o]; simpl.
    + apply sys_bind; [apply sys_read | intro c; apply sys_ret].
    + apply sys_throw.
    + destruct (other_isChainUnsupported o); [apply sys_ret | apply sys_throw].
Qed.

(** Every call, under the conditions its kind needs. *)
Lemma exec_sys (c : Call) (s : System) :
  (c = CallConnect ->
     allowed CallLoginWithPaperModal = true
     /\ forall s l, R s {| this := this s; env := log_listener l (env s) |}) ->
  (c = CallDisconnect -> allowed CallLogout = true) ->
  (is_relay c = true ->
     forall s e, R s {| this := this s; env := log_event e (env s) |}) ->
  R s (exec c s).
Proof.
  intros Hconnect Hdisconnect Hrelay.
  destruct c; unfold exec.
  - apply R_getSdk.
  - apply sys_getAccount.
  - apply sys_getProvider.
  - apply sys_getSigner.
  - apply (proj1 (sys_relays (Hrelay eq_refl))).
  - apply (proj1 (proj2 (sys_relays (Hrelay eq_refl)))).
  - destruct (Hconnect eq_refl) as [H1 H2]. apply sys_connect; assumption.
  - apply sys_getChainId.
  - apply sys_isAuthorized.
  - apply sys_disconnect. apply Hdisconnect. reflexivity.
  - apply (proj2 (proj2 (sys_relays (Hrelay eq_refl)))).
  - apply sys_getUser.
Qed.

End StableSys.

Section SurroundingsFacts.

Context {X : Externals}.

Lemma count_log_call (P : SdkCall -> bool) (c : SdkCall) (w : World) (s : System) :
  count_calls P {| this := this s; env := set_world w (log_call c (env s)) |} =
  count_calls P s + (if P c then 1 else 0).
Proof.
  unfold count_calls. simpl. rewrite filter_app, length_app. simpl.
  destruct (P c); reflexivity.
Qed.

Lemma count_getSdk (P : SdkCall -> bool) (s : System) :
  (forall o, P (NewSdk o) = false) ->
  count_calls P (snd (getSdk s)) = count_calls P s.
Proof.
  intro H. unfold getSdk. destruct (sdk (this s)); simpl; [reflexivity|].
  unfold count_calls. simpl. rewrite filter_app, length_app. simpl.
  rewrite H. simpl. lia.
Qed.

(** A call other than [connect] registers no listener and removes none. *)
Lemma exec_same_listeners (c : Call) (s : System) :
  c <> CallConnect -> same_listeners s (exec c s).
Proof.
  intro Hc.
  apply (exec_sys same_listeners) with (allowed := fun _ => true);
    unfold same_listeners; simpl; auto; try congruence.
  - intros s0. unfold getSdk. destruct (sdk (this s0)); reflexivity.
Qed.

Lemma listeners_grow_refl (s : System) : listeners_grow s s.
Proof. exists []. rewrite app_nil_r. reflexivity. Qed.

Lemma listeners_grow_trans (a b c : System) :
  listeners_grow a b -> listeners_grow b c -> listeners_grow a c.
Proof.
  intros [l1 H1] [l2 H2]. exists (l1 ++ l2)%list.
  rewrite H2, H1, app_assoc. reflexivity.
Qed.

Lemma listeners_grow_same (s s' : System) :
  listeners (env s') = listeners (env s) -> listeners_grow s s'.
Proof. intro H. exists []. rewrite app_nil_r. exact H. Qed.

(** No call removes a listener. *)
Lemma exec_listeners_grow (c : Call) (s : System) : listeners_grow s (exec c s).
Proof.
  apply (exec_sys listeners_grow) with (allowed := fun _ => true);
    auto using listeners_grow_refl.
  - apply listeners_grow_trans.
  - intros s0 c0 w _. apply listeners_grow_same. reflexivity.
  - intros s0. apply listeners_grow_same.
    unfold getSdk. destruct (sdk (this s0)); reflexivity.
  - intros s0 v. apply listeners_grow_same. reflexivity.
  - intros s0 v. apply listeners_grow_same. reflexivity.
  - intros _. split; [reflexivity|]. intros s0 l. exists [l]. reflexivity.
  - intros _ s0 e. apply listeners_grow_same. reflexivity.
Qed.

(** The login prompt is opened by [connect] only. *)
Lemma exec_same_logins (c : Call) (s : System) :
  c <> CallConnect -> same_count is_login s (exec c s).
Proof.
  intro Hc.
  apply (exec_sys (same_count is_login)) with (allowed := fun c => negb (is_login c));
    unfold same_count; auto; try congruence.
  - intros s0 c0 w H0. rewrite count_log_call.
    destruct (is_login c0); [discriminate H0 | lia].
  - intros s0. apply count_getSdk. reflexivity.
Qed.

(** The SDK's logout is called by [disconnect] only. *)
Lemma exec_same_logouts (c : Call) (s : System) :
  c <> CallDisconnect -> same_count is_logout s (exec c s).
Proof.
  intro Hc.
  apply (exec_sys (same_count is_logout)) with (allowed := fun c => negb (is_logout c));
    unfold same_count; auto; try congruence.
  - intros s0 c0 w H0. rewrite count_log_call.
    destruct (is_logout c0); [discriminate H0 | lia].
  - intros s0. apply count_getSdk. reflexivity.
Qed.

(** Clients built plus clients still to be built stays what it is. *)
Lemma exec_sdk_budget (c : Call) (s : System) : sdk_budget s (exec c s).
Proof.
  apply (exec_sys sdk_budget) with (allowed := fun c => negb (is_NewSdk c));
    unfold sdk_budget; auto; try congruence.
  - intros s0 c0 w H0. rewrite count_log_call. unfold pending_sdk. simpl.
    destruct (is_NewSdk c0); [discriminate H0 | lia].
  - intros s0. unfold getSdk, pending_sdk, count_calls.
    destruct (sdk (this s0)) eqn:E; simpl; [rewrite E; reflexivity|].
    rewrite filter_app, length_app. simpl. lia.
Qed.

End SurroundingsFacts.

(** ** Further properties of the methods *)
Section Further.

Context {X : Externals}.

Lemma bind_Ok_inv {A B} (m : M A) (k : A -> M B) (s s' : System) (b : B) :
  bind m k s = (Ok b, s') ->
  exists a s1, m s = (Ok a, s1) /\ k a s1 = (Ok b, s').
Proof.
  unfold bind. destruct (m s) as [[a|e] s1]; [|discriminate].
  intro H. exists a, s1. split; [reflexivity | exact H].
Qed.

Lemma getUser_Ok_Some (s s' : System) (u : GetUser) :
  getUser s = (Ok (Some u), s') -> user (this s') = Some u.
Proof.
  destruct (getUser_inv s) as [u0 Hu E|r w' Hu Hq Hst E|r w' Hu Hq Hst E|e w' Hu Hq E];
    rewrite E; intro H; inversion H; subst; auto.
Qed.

Lemma getAccount_Ok_inv (s s' : System) (a : Address) :
  getAccount s = (Ok a, s') ->
  exists u, getUser s = (Ok (Some u), s') /\ a = hex_prefixed (walletAddress u).
Proof.
  unfold getAccount. intro H.
  destruct (bind_Ok_inv _ _ _ _ _ H) as ([u|] & s1 & Hu & Hk).
  - unfold ret in Hk. inversion Hk. subst. exists u. split; [exact Hu|reflexivity].
  - discriminate Hk.
Qed.

Lemma getChainId_Ok_inv (s s' : System) (pr : Promise Z) :
  getChainId s = (Ok pr, s') ->
  s' = s /\ exists ch, getChain (chain (paperOptions (this s))) = Ok ch
                       /\ pr = Fulfilled (id ch).
Proof.
  unfold getChainId, bind, read, ret, throw. simpl.
  destruct (getChain (chain (paperOptions (this s)))) as [ch|e]; [|discriminate].
  intro H. inversion H. subst. split; [reflexivity|]. exists ch. auto.
Qed.

Lemma steps_sdk_budget (s s' : System) : steps s s' -> sdk_budget s s'.
Proof.
  induction 1 as [s|s1 s2 s3 _ IH Hstep].
  - reflexivity.
  - unfold sdk_budget in *. rewrite <- IH.
    destruct Hstep as [c s0|w s0]; [apply exec_sdk_budget | reflexivity].
Qed.

Lemma constructor_Ok_shape (window : bool)
    (config : PaperEmbeddedWalletWagmiConnectorProps) (a a' : Ambient)
    (c : Connector) :
  constructor window config a = (Ok c, a') ->
  exists ch,
    getChain (chain (options config)) = Ok ch
    /\ c = {| ready := window;
              connector_id := "paper-embedded-wallet";
              connector_name := "Paper Embedded Wallet";
              chains := [ch];
              sdk := if window then Some {| sdk_options := options config |}
                     else None;
              paperOptions := options config;
              provider := None;
              user := None;
              rpcEndpoint := options_rpcEndpoint (options config) |}
    /\ a' = if window then log_call (NewSdk (options config)) a else a.
Proof.
  unfold constructor.
  destruct (falsy_clientId (options config)); [discriminate|].
  destruct (getChain (chain (options config))) as [ch|e]; [|discriminate].
  intro H. exists ch. split; [reflexivity|].
  destruct window; simpl in H; inversion H; subst; split; reflexivity.
Qed.

(** X1.  The constructor returns a connector exactly when the client id is
    neither absent nor empty and the chain name is one of the five; the
    connector then has no session and no provider, carries the options it
    was given and the one chain [getChain] finds, and the SDK client has
    been built, by one recorded call, exactly where there is a window. *)
Theorem X1_constructor_accepts_iff (window : bool)
    (config : PaperEmbeddedWalletWagmiConnectorProps) (a a' : Ambient)
    (c : Connector) :
  constructor window config a = (Ok c, a') <->
  (exists s0, clientId (options config) = Some s0 /\ s0 <> "")
  /\ In (chain (options config)) supported_chain_names
  /\ exists ch,
       getChain (chain (options config)) = Ok ch
       /\ c = {| ready := window;
                 connector_id := "paper-embedded-wallet";
                 connector_name := "Paper Embedded Wallet";
                 chains := [ch];
                 sdk := if window then Some {| sdk_options := options config |}
                        else None;
                 paperOptions := options config;
                 provider := None;
                 user := None;
                 rpcEndpoint := options_rpcEndpoint (options config) |}
       /\ a' = if window then log_call (NewSdk (options config)) a else a.
Proof.
  split.
  - intro H. split; [|split].
    + unfold constructor, falsy_clientId in H.
      destruct (clientId (options config)) as [s0|]; [|discriminate H].
      destruct (truthy_string s0) eqn:Ht; [|discriminate H].
      exists s0. split; [reflexivity|]. apply truthy_string_nonempty. exact Ht.
    + destruct (constructor_Ok_shape _ _ _ _ _ H) as (ch & Hch & _).
      eapply getChain_Ok_supported. exact Hch.
    + apply constructor_Ok_shape. exact H.
  - intros ((s0 & Hid & Hne) & _ & ch & Hch & Hc & Ha).
    unfold constructor, falsy_clientId.
    rewrite Hid. apply truthy_string_nonempty in Hne. rewrite Hne. simpl.
    rewrite Hch. subst c a'. destruct window; reflexivity.
Qed.

(** X2.  In every state a connector can reach, the fields set from the
    configuration are what the constructor made them: the options, the RPC
    endpoint, the single chain, the ready flag, the id and the name. *)
Theorem X2_configuration_is_immutable (window : bool)
    (config : PaperEmbeddedWalletWagmiConnectorProps) (a : Ambient) (s : System) :
  reachable window config a s ->
  paperOptions (this s) = options config
  /\ rpcEndpoint (this s) = options_rpcEndpoint (options config)
  /\ ready (this s) = window
  /\ connector_id (this s) = "paper-embedded-wallet"
  /\ connector_name (this s) = "Paper Embedded Wallet"
  /\ exists ch, getChain (chain (options config)) = Ok ch
                /\ chains (this s) = [ch].
Proof.
  intros (c & a' & Hc & Hsteps).
  pose proof (steps_keeps _ _ Hsteps) as K. unfold keeps in K. simpl in K.
  destruct K as (K1 & K2 & K3 & K4 & K5 & K6 & _).
  apply constructor_Ok_shape in Hc.
  destruct Hc as (ch & Hch & Hc & _).
  rewrite K1, K2, K3, K4, K5, K6. subst c. simpl.
  repeat split; auto. exists ch. auto.
Qed.

(** X3.  In every state a connector can reach, the SDK client has been
    built at most once since the constructor was entered: no client was
    built while the [sdk] field is empty, exactly one once it is filled, and
    where there is a window it is filled from the start.  A [getSdk] that
    follows a [getSdk] returns the same client and changes nothing. *)
Theorem X3_sdk_client_built_once (window : bool)
    (config : PaperEmbeddedWalletWagmiConnectorProps) (a : Ambient) (s : System) :
  reachable window config a s ->
  let before := length (filter is_NewSdk (sdkCalls a)) in
  count_calls is_NewSdk s <= before + 1
  /\ (sdk (this s) = None -> count_calls is_NewSdk s = before)
  /\ (forall k, sdk (this s) = Some k -> count_calls is_NewSdk s = before + 1)
  /\ (window = true -> exists k, sdk (this s) = Some k)
  /\ (forall k s1, getSdk s = (Ok k, s1) -> getSdk s1 = (Ok k, s1)).
Proof.
  intros (c & a' & Hc & Hsteps) before.
  pose proof (steps_sdk_budget _ _ Hsteps) as B.
  pose proof (steps_keeps _ _ Hsteps) as K. unfold keeps in K. simpl in K.
  destruct K as (_ & _ & _ & _ & _ & _ & K & _).
  apply constructor_Ok_shape in Hc. destruct Hc as (ch & _ & Hc & Ha).
  assert (B0 : count_calls is_NewSdk {| this := c; env := a' |}
               + pending_sdk {| this := c; env := a' |} = before + 1).
  { subst c a'. unfold count_calls, pending_sdk, before.
    destruct window; simpl; [|lia].
    rewrite filter_app, length_app. simpl. lia. }
  unfold sdk_budget in B. rewrite B0 in B. unfold pending_sdk in B.
  split; [|split; [|split; [|split]]].
  - destruct (sdk (this s)); lia.
  - intro E. rewrite E in B. lia.
  - intros k E. rewrite E in B. lia.
  - intro Hw. subst window c. simpl in K. eexists. apply K. reflexivity.
  - intros k s1. unfold getSdk.
    destruct (sdk (this s)) as [k0|] eqn:E; intro H; inversion H; subst; simpl.
    + rewrite E. reflexivity.
    + reflexivity.
Qed.

(** X4.  With a session [u], [getSigner()] asks that session's wallet for a
    signer and hands on whatever the SDK answers, a signer or a failure.
    The endpoint override is passed only when an endpoint is configured and
    truthy: an empty string or the number 0 counts as none.  [getSigner()]
    never assigns the provider field. *)
Theorem X4_getSigner_forwards (s s1 : System) (u : GetUser)
    (res : Completion Signer) (w : World) :
  getUser s = (Ok (Some u), s1) ->
  wallet_getEthersJsSigner (wallet u) (signerOptions_of (this s1))
    (world (env s1)) = (res, w) ->
  getSigner s =
    (res, {| this := this s1;
             env := set_world w
                      (log_call (CallGetEthersJsSigner (wallet u)
                                   (signerOptions_of (this s1))) (env s1)) |})
  /\ provider (this (snd (getSigner s))) = provider (this s)
  /\ rpcEndpoint (this s1) = rpcEndpoint (this s)
  /\ (signerOptions_of (this s1) = None <->
      rpcEndpoint (this s) = None
      \/ rpcEndpoint (this s) = Some (NetworkName "")
      \/ rpcEndpoint (this s) = Some (NetworkChainId 0)).
Proof.
  intros Hu Hsig.
  assert (Hr : rpcEndpoint (this s1) = rpcEndpoint (this s)).
  { pose proof (stable_getUser keeps keeps_refl keeps_trans keeps_set_sdk
                  keeps_set_user s) as K.
    rewrite Hu in K. simpl in K. unfold keeps in K. tauto. }
  split; [|split; [|split]].
  - unfold getSigner, bind. rewrite Hu. unfold read, sdk_call. simpl.
    unfold signerOptions_of in Hsig. rewrite Hsig. reflexivity.
  - apply getSigner_same_provider.
  - exact Hr.
  - unfold signerOptions_of. rewrite Hr.
    destruct (rpcEndpoint (this s)) as [[n|z|n z]|]; simpl.
    + destruct n; simpl; split; intro H; auto; try discriminate.
      destruct H as [H|[H|H]]; discriminate H.
    + destruct (Z.eqb_spec z 0) as [E|E]; simpl; split; intro H; auto;
        try discriminate.
      * subst z. auto.
      * destruct H as [H|[H|H]]; try discriminate H.
        inversion H. contradiction.
    + split; intro H; [discriminate H|].
      destruct H as [H|[H|H]]; discriminate H.
    + split; auto.
Qed.

(** X5.  With no provider cached, a [getProvider()] whose signer has no
    provider rejects with the failed-to-get-signer error and caches no
    provider, while the session that was used stays cached; a signer with a
    provider makes it resolve with that provider and cache it; a failure of
    [getSigner()] is handed on as it is. *)
Theorem X5_getProvider_follows_signer (s s1 : System) (res : Completion Signer) :
  provider (this s) = None ->
  getSigner s = (res, s1) ->
  match res with
  | Ok sg =>
      (exists u, user (this s1) = Some u)
      /\ match signer_provider sg with
         | None =>
             getProvider s = (Throw failedSignerError, s1)
             /\ provider (this s1) = None
         | Some p =>
             getProvider s =
               (Ok p, {| this := set_provider (Some p) (this s1); env := env s1 |})
         end
  | Throw e => getProvider s = (Throw e, s1) /\ provider (this s1) = None
  end.
Proof.
  intros Hp Hsig.
  pose proof (getSigner_same_provider s) as P. unfold same_provider in P.
  rewrite Hsig in P. simpl in P. rewrite Hp in P.
  assert (E : getProvider s =
              match res with
              | Ok sg =>
                  match signer_provider sg with
                  | None => (Throw failedSignerError, s1)
                  | Some p => (Ok p, {| this := set_provider (Some p) (this s1);
                                        env := env s1 |})
                  end
              | Throw e => (Throw e, s1)
              end).
  { unfold getProvider, bind, read, write, ret, throw. simpl. rewrite Hp, Hsig.
    destruct res as [sg|e]; [|reflexivity].
    destruct (signer_provider sg); reflexivity. }
  destruct res as [sg|e]; [|split; assumption].
  split.
  - unfold getSigner, bind in Hsig.
    destruct (getUser s) as [[[u|]|e] s0] eqn:Hu; try discriminate Hsig.
    unfold read, sdk_call in Hsig. simpl in Hsig.
    destruct (wallet_getEthersJsSigner _ _ _) as [r w] in Hsig.
    inversion Hsig. subst. simpl. exists u. eapply getUser_Ok_Some. exact Hu.
  - destruct (signer_provider sg); [exact E | split; assumption].
Qed.

(** X6.  When nothing is cached and the SDK's user query fails, that failure
    is what [getAccount()], [getSigner()], [isAuthorized()], [getProvider()]
    (with no provider cached) and [connect()] reject with, unwrapped;
    [connect()] stops there, before any login prompt, and nothing is
    cached. *)
Theorem X6_user_query_failure_is_handed_on (s : System) (e : JsError) (w' : World) :
  user (this s) = None ->
  sdk_getUser (world (env s)) = (Throw e, w') ->
  fst (getAccount s) = Throw e
  /\ fst (getSigner s) = Throw e
  /\ fst (isAuthorized s) = Throw e
  /\ (provider (this s) = None -> fst (getProvider s) = Throw e)
  /\ connect s = (Throw e, after_query s w')
  /\ user (this (after_query s w')) = None.
Proof.
  intros Hu Hq.
  pose proof (getUser_query_throws s e w' Hu Hq) as E.
  split; [|split; [|split; [|split; [|split]]]].
  - unfold getAccount, bind. rewrite E. reflexivity.
  - unfold getSigner, bind. rewrite E. reflexivity.
  - unfold isAuthorized, bind. rewrite E. reflexivity.
  - intro Hp. unfold getProvider, bind, read. simpl. rewrite Hp.
    unfold getSigner, bind. rewrite E. reflexivity.
  - unfold connect, bind at 1. unfold isAuthorized, bind at 1. rewrite E.
    reflexivity.
  - rewrite after_query_user. exact Hu.
Qed.

(** X7.  When the SDK's logout fails, [disconnect()] rejects with that
    failure and clears nothing: the cached session and the cached provider
    are as before, so a cached session keeps [isAuthorized()] answering
    true. *)
Theorem X7_failed_logout_clears_nothing (s : System) (e : JsError) (w : World) :
  auth_logout (world (env s)) = (Throw e, w) ->
  exists s',
    disconnect s = (Throw e, s')
    /\ user (this s') = user (this s)
    /\ provider (this s') = provider (this s)
    /\ (forall u, user (this s) = Some u -> isAuthorized s' = (Ok true, s')).
Proof.
  intro Hl. unfold disconnect, bind, sdk_call.
  pose proof (getSdk_world s) as Hw.
  pose proof (getSdk_user s) as Hu.
  pose proof (getSdk_provider s) as Hp.
  destruct (getSdk s) as [[k|e0] s1] eqn:Hk; simpl in *.
  - rewrite Hw, Hl. eexists. split; [reflexivity|]. simpl.
    split; [exact Hu|]. split; [exact Hp|].
    intros u E. apply isAuthorized_cached with (u := u). simpl. congruence.
  - destruct (getSdk_Ok s) as [k Hk']. rewrite Hk in Hk'. discriminate Hk'.
Qed.

Lemma emit_on_frame (r : Receiver) (e : ConnectorEvent) (s : System) :
  let s' := snd (emit_on r e s) in
  this s' = this s
  /\ world (env s') = world (env s)
  /\ sdkCalls (env s') = sdkCalls (env s)
  /\ listeners (env s') = listeners (env s)
  /\ (emitted (env s') = emitted (env s)
      \/ (r = ThisConnector /\ emitted (env s') = (emitted (env s) ++ [e])%list)).
Proof.
  destruct r as [| |o]; simpl.
  - repeat split; auto.
  - repeat split; auto.
  - destruct (other_emit o); simpl; repeat split; auto.
Qed.

(** X8.  Whatever its receiver and its argument, an event relay changes no
    field of the connector, makes no SDK call and registers no listener, and
    the connector emits at most one event, and none unless the relay runs on
    the connector.  Run on the connector, [onAccountsChanged] emits
    [disconnect] exactly when the list is empty or its first account is the
    empty string and otherwise [change] with the first account,
    [onDisconnect] emits [disconnect] whatever its argument, and
    [onChainChanged] emits [change] with [Number(chainId)].  Run with [this]
    undefined, [onAccountsChanged] and [onDisconnect] resolve without doing
    anything, and [onChainChanged] throws a [TypeError]. *)
Theorem X8_relays_only_emit :
  (forall c s, is_relay c = true ->
     this (exec c s) = this s
     /\ world (env (exec c s)) = world (env s)
     /\ sdkCalls (env (exec c s)) = sdkCalls (env s)
     /\ listeners (env (exec c s)) = listeners (env s)
     /\ exists es, emitted (env (exec c s)) = (emitted (env s) ++ es)%list
                   /\ length es <= 1)
  /\ (forall r s, unbound r = true ->
        (forall accounts, snd (onAccountsChanged r accounts s) = s)
        /\ (forall e, snd (onDisconnect r e s) = s)
        /\ (forall chainId, snd (onChainChanged r chainId s) = s))
  /\ (forall accounts s,
        exists e,
          onAccountsChanged ThisConnector accounts s =
            (Ok tt, {| this := this s; env := log_event e (env s) |})
          /\ (e = EvDisconnect <->
              accounts = [] \/ exists rest, accounts = "" :: rest)
          /\ (e <> EvDisconnect ->
              exists a rest, accounts = a :: rest /\ e = EvChange (AccountData a)))
  /\ (forall err s,
        onDisconnect ThisConnector err s =
          (Ok tt, {| this := this s; env := log_event EvDisconnect (env s) |}))
  /\ (forall chainId s,
        exists unsupported,
          onChainChanged ThisConnector chainId s =
            (Ok tt, {| this := this s;
                       env := log_event
                                (EvChange (ChainData (Number chainId) unsupported))
                                (env s) |}))
  /\ (forall accounts err chainId s,
        onAccountsChanged ThisUndefined accounts s = (Ok tt, s)
        /\ onDisconnect ThisUndefined err s = (Ok tt, s)
        /\ exists msg, onChainChanged ThisUndefined chainId s = (Throw (TypeError msg), s)).
Proof.
  assert (Hat_most : forall r e s,
            this (snd (emit_on r e s)) = this s
            /\ world (env (snd (emit_on r e s))) = world (env s)
            /\ sdkCalls (env (snd (emit_on r e s))) = sdkCalls (env s)
            /\ listeners (env (snd (emit_on r e s))) = listeners (env s)
            /\ exists es, emitted (env (snd (emit_on r e s))) =
                            (emitted (env s) ++ es)%list
                          /\ length es <= 1).
  { intros r e s. destruct (emit_on_frame r e s) as (A & B & C & D & E).
    repeat split; auto.
    destruct E as [E|[_ E]].
    - exists []. rewrite app_nil_r. split; [exact E | simpl; lia].
    - exists [e]. split; [exact E | simpl; lia]. }
  assert (Hnone : forall s : System,
            exists es, emitted (env s) = (emitted (env s) ++ es)%list
                       /\ length es <= 1).
  { intro s. exists []. rewrite app_nil_r. split; [reflexivity | simpl; lia]. }
  split; [|split; [|split; [|split; [|split]]]].
  - intros c s Hc. destruct c; try discriminate Hc; unfold exec.
    + unfold onAccountsChanged. destruct (nth_error accounts 0) as [a|];
        [destruct (negb (truthy_string a))|]; apply Hat_most.
    + apply Hat_most.
    + unfold onChainChanged, bind.
      destruct this_ as [| |o]; simpl.
      * repeat split; auto. eexists [_]. split; [reflexivity | simpl; lia].
      * repeat split; auto.
      * destruct (other_isChainUnsupported o); simpl; [|repeat split; auto].
        destruct (other_emit o); simpl; repeat split; auto.
  - intros r s H. apply relay_unbound. exact H.
  - intros accounts s. unfold onAccountsChanged.
    destruct accounts as [|a rest]; simpl.
    + exists EvDisconnect. split; [reflexivity|]. split.
      * split; auto.
      * congruence.
    + destruct a as [|ch a]; simpl.
      * exists EvDisconnect. split; [reflexivity|]. split.
        -- split; eauto.
        -- congruence.
      * eexists. split; [reflexivity|]. split.
        -- split; [discriminate|]. intros [H|[r H]]; discriminate H.
        -- intros _. eauto.
  - reflexivity.
  - intros chainId s. exists (isChainUnsupported (this s) (Number chainId)).
    reflexivity.
  - intros accounts err chainId s. split; [|split].
    + unfold onAccountsChanged. destruct (nth_error accounts 0) as [a|];
        [destruct (negb (truthy_string a))|]; reflexivity.
    + reflexivity.
    + eexists. reflexivity.
Qed.

(** X9.  No call other than an event relay emits an event. *)
Theorem X9_only_relays_emit (c : Call) (s : System) :
  is_relay c = false -> emitted (env (exec c s)) = emitted (env s).
Proof.
  intro Hc. change (same_emitted s (exec c s)).
  apply (exec_sys same_emitted) with (allowed := fun _ => true);
    unfold same_emitted; simpl; auto; try congruence.
  intros s0. unfold getSdk. destruct (sdk (this s0)); reflexivity.
Qed.

Lemma steps_listeners_grow (s s' : System) : steps s s' -> listeners_grow s s'.
Proof.
  induction 1 as [s|s1 s2 s3 _ IH Hstep].
  - apply listeners_grow_refl.
  - eapply listeners_grow_trans; [exact IH|].
    destruct Hstep as [c s0|w s0].
    + apply exec_listeners_grow.
    + apply listeners_grow_same. reflexivity.
Qed.

(** X10.  Listeners are registered by [connect] only, and no call ever
    removes one: over any run the list of registrations only gets longer
    at its end. *)
Theorem X10_listeners_are_never_removed :
  (forall c s, c <> CallConnect ->
     listeners (env (exec c s)) = listeners (env s))
  /\ (forall s s', steps s s' ->
        exists l, listeners (env s') = (listeners (env s) ++ l)%list).
Proof.
  split.
  - intros c s H. apply exec_same_listeners. exact H.
  - intros s s' H. apply steps_listeners_grow. exact H.
Qed.

Lemma login_step_count (s1 : System) :
  let m := try_catch
       (_ <- getSdk ;;
        resp <- sdk_call CallLoginWithPaperModal auth_loginWithPaperModal ;;
        if negb (UserStatus_eqb (status (resp_user resp)) LOGGED_IN_WALLET_INITIALIZED)
        then throw unexpectedStatusError
        else ret tt)
       (fun e => throw (UserRejectedRequestError e)) in
  count_calls is_login (snd (m s1)) = count_calls is_login s1 + 1.
Proof.
  intro m. unfold m, try_catch, bind, sdk_call.
  pose proof (count_getSdk is_login s1 (fun _ => eq_refl)) as C.
  destruct (getSdk s1) as [[k|e] s2] eqn:Hk; simpl in C.
  - destruct (auth_loginWithPaperModal (world (env s2))) as [[resp|e] w].
    + destruct (negb _); simpl; rewrite count_log_call, C; reflexivity.
    + simpl. rewrite count_log_call, C. reflexivity.
  - destruct (getSdk_Ok s1) as [k Hk']. rewrite Hk in Hk'. discriminate Hk'.
Qed.

Lemma after_login_same_logins :
  stable_sys (same_count is_login)
    (provider_ <- getProvider ;;
     provider_on provider_ "accountsChanged" L_onAccountsChanged ;;;
     provider_on provider_ "chainChanged" L_onChainChanged ;;;
     provider_on provider_ "disconnect" L_onDisconnect ;;;
     p <- getChainId ;;
     id_ <- await p ;;
     account <- getAccount ;;
     ret {| data_provider := provider_;
            data_chain_id := id_;
            data_chain_unsupported := false;
            data_account := account |}).
Proof.
  apply sys_after_login with (allowed := fun c => negb (is_login c));
    unfold same_count; auto; try congruence.
  - intros s0 c0 w H0. rewrite count_log_call.
    destruct (is_login c0); [discriminate H0 | lia].
  - intros s0. apply count_getSdk. reflexivity.
Qed.

(** X11.  The login prompt is opened by [connect] only, and by a [connect]
    exactly when its authorization check answers false, and then once; the
    SDK's logout is called by [disconnect] only. *)
Theorem X11_login_and_logout_calls :
  (forall c s, c <> CallConnect ->
     count_calls is_login (exec c s) = count_calls is_login s)
  /\ (forall s s1, isAuthorized s = (Ok true, s1) ->
        count_calls is_login (snd (connect s)) = count_calls is_login s)
  /\ (forall s s1, isAuthorized s = (Ok false, s1) ->
        count_calls is_login (snd (connect s)) = count_calls is_login s + 1)
  /\ (forall c s, c <> CallDisconnect ->
        count_calls is_logout (exec c s) = count_calls is_logout s).
Proof.
  assert (Hauth : forall s, count_calls is_login (snd (isAuthorized s)) =
                            count_calls is_login s).
  { intro s. apply (exec_same_logins CallIsAuthorized s). discriminate. }
  split; [|split; [|split]].
  - intros c s H. apply exec_same_logins. exact H.
  - intros s s1 H. pose proof (Hauth s) as A. rewrite H in A. simpl in A.
    unfold connect, bind at 1. rewrite H. simpl negb. cbv iota.
    unfold bind at 1, ret at 1.
    rewrite <- A. apply after_login_same_logins.
  - intros s s1 H. pose proof (Hauth s) as A. rewrite H in A. simpl in A.
    unfold connect, bind at 1. rewrite H. simpl negb. cbv iota.
    unfold bind at 1.
    pose proof (login_step_count s1) as L. simpl in L.
    destruct (try_catch _ _ s1) as [[[]|e] s2]; simpl in L.
    + rewrite <- A, <- L. apply after_login_same_logins.
    + simpl. rewrite L, A. reflexivity.
  - intros c s H. apply exec_same_logouts. exact H.
Qed.

Lemma hex_prefixed_is_Address (a : string) : is_Address (hex_prefixed a) = true.
Proof.
  unfold is_Address, hex_prefixed.
  destruct (String.prefix "0x" a) eqn:E; [exact E | apply hex_prefix_added].
Qed.

Lemma login_step_same_listeners (b : bool) (s1 s2 : System) (r : Completion unit) :
  (if negb b then
     try_catch
       (_ <- getSdk ;;
        resp <- sdk_call CallLoginWithPaperModal auth_loginWithPaperModal ;;
        if negb (UserStatus_eqb (status (resp_user resp)) LOGGED_IN_WALLET_INITIALIZED)
        then throw unexpectedStatusError
        else ret tt)
       (fun e => throw (UserRejectedRequestError e))
   else ret tt) s1 = (r, s2) ->
  listeners (env s2) = listeners (env s1).
Proof.
  destruct b; simpl.
  - unfold ret. intro H. inversion H. reflexivity.
  - unfold try_catch, bind, sdk_call, throw, ret.
    assert (Hl : listeners (env (snd (getSdk s1))) = listeners (env s1)).
    { unfold getSdk. destruct (sdk (this s1)); reflexivity. }
    destruct (getSdk s1) as [[k|e] s3]; simpl in Hl.
    + destruct (auth_loginWithPaperModal (world (env s3))) as [[resp|e] w].
      * destruct (negb _); intro H; inversion H; subst; simpl; exact Hl.
      * intro H. inversion H. subst. simpl. exact Hl.
    + intro H. inversion H. subst. exact Hl.
Qed.

Lemma registered_listeners (p : Provider) (a : Ambient) :
  listeners (registered p a) = (listeners a ++ connect_listeners p)%list.
Proof.
  unfold registered, connect_listeners. simpl.
  rewrite <- !app_assoc. reflexivity.
Qed.

(** How a [connect] that resolved went. *)
Lemma connect_Ok_inv (s s' : System) (d : ConnectorData) :
  connect s = (Ok d, s') ->
  exists s3 u ch,
    provider (this s3) = Some (data_provider d)
    /\ listeners (env s3) = listeners (env s)
    /\ getUser {| this := this s3; env := registered (data_provider d) (env s3) |}
       = (Ok (Some u), s')
    /\ getChain (chain (paperOptions (this s3))) = Ok ch
    /\ d = {| data_provider := data_provider d;
              data_chain_id := id ch;
              data_chain_unsupported := false;
              data_account := hex_prefixed (walletAddress u) |}.
Proof.
  unfold connect. intro H.
  destruct (bind_Ok_inv _ _ _ _ _ H) as (b & s1 & H1 & H'). clear H.
  destruct (bind_Ok_inv _ _ _ _ _ H') as (t & s2 & H2 & H''). clear H'.
  destruct (bind_Ok_inv _ _ _ _ _ H'') as (p & s3 & H3 & H4). clear H''.
  unfold bind at 1 2 3 in H4. unfold provider_on in H4. simpl in H4.
  destruct (bind_Ok_inv _ _ _ _ _ H4) as (pr & s5 & H5 & H6). clear H4.
  destruct (getChainId_Ok_inv _ _ _ H5) as (E5 & ch & Hch & Hpr). subst s5 pr.
  unfold bind at 1 in H6. unfold await, ret at 1 in H6.
  destruct (bind_Ok_inv _ _ _ _ _ H6) as (acct & s7 & H7 & H8). clear H6.
  unfold ret in H8. inversion H8. subst d s7. clear H8.
  destruct (getAccount_Ok_inv _ _ _ H7) as (u & Hu & Hacct). unfold getAccount in H7.
  exists s3, u, ch. simpl in *.
  split; [eapply getProvider_Ok_cached; exact H3|].
  split.
  - pose proof (exec_same_listeners CallIsAuthorized s) as L1.
    unfold same_listeners, exec in L1. rewrite H1 in L1. simpl in L1.
    pose proof (login_step_same_listeners b s1 s2 _ H2) as L2.
    pose proof (exec_same_listeners CallGetProvider s2) as L3.
    unfold same_listeners, exec in L3. rewrite H3 in L3. simpl in L3.
    rewrite L3, L2. apply L1. discriminate. discriminate.
  - split; [exact Hu|]. split; [exact Hch|]. rewrite Hacct. reflexivity.
Qed.

(** What [connect] does with a session and a provider in the cache. *)
Lemma connect_cached (s : System) (u : GetUser) (p : Provider) (ch : Chain) :
  user (this s) = Some u ->
  provider (this s) = Some p ->
  getChain (chain (paperOptions (this s))) = Ok ch ->
  connect s =
    (Ok {| data_provider := p;
           data_chain_id := id ch;
           data_chain_unsupported := false;
           data_account := hex_prefixed (walletAddress u) |},
     {| this := this s; env := registered p (env s) |}).
Proof.
  intros Hu Hp Hch.
  unfold connect, bind at 1. rewrite (isAuthorized_cached s u Hu). simpl negb.
  cbv iota. unfold bind at 1, ret at 1. unfold bind at 1.
  rewrite (getProvider_cached s p Hp).
  unfold bind at 1 2 3. unfold provider_on. simpl.
  unfold bind at 1. unfold getChainId, bind at 1, read. simpl. rewrite Hch.
  unfold ret at 1. unfold bind at 1. unfold await, ret at 1.
  unfold bind at 1. unfold getAccount, bind at 1.
  rewrite getUser_cached with (u := u); [reflexivity | exact Hu].
Qed.

(** X12.  After a [connect()] that resolved, the session and the returned
    provider are cached, the returned account is the hex-prefixed wallet
    address of the cached session, the chain is the configured one and is
    reported as supported, and the three listeners are registered on the
    returned provider, after those that were there.  From then on
    [isAuthorized()], [getProvider()] and [getAccount()] answer from the
    cache without changing anything. *)
Theorem X12_connect_establishes (s s' : System) (d : ConnectorData) :
  connect s = (Ok d, s') ->
  provider (this s') = Some (data_provider d)
  /\ (exists u, user (this s') = Some u
                /\ data_account d = hex_prefixed (walletAddress u))
  /\ is_Address (data_account d) = true
  /\ data_chain_unsupported d = false
  /\ (exists ch, getChain (chain (paperOptions (this s))) = Ok ch
                 /\ data_chain_id d = id ch)
  /\ listeners (env s') =
       (listeners (env s) ++ connect_listeners (data_provider d))%list
  /\ isAuthorized s' = (Ok true, s')
  /\ getProvider s' = (Ok (data_provider d), s')
  /\ getAccount s' = (Ok (data_account d), s').
Proof.
  intro H.
  pose proof (exec_keeps CallConnect s) as K. unfold exec in K.
  rewrite H in K. simpl in K. unfold keeps in K.
  destruct K as (_ & _ & _ & _ & K5 & _).
  destruct (connect_Ok_inv _ _ _ H) as (s3 & u & ch & Hp & Hl & Hu & Hch & Hd).
  set (s4 := {| this := this s3; env := registered (data_provider d) (env s3) |}) in *.
  pose proof (stable_getUser keeps keeps_refl keeps_trans keeps_set_sdk
                keeps_set_user s4) as K4.
  rewrite Hu in K4. simpl in K4. unfold keeps in K4.
  destruct K4 as (_ & _ & _ & _ & K45 & _ & _ & K48 & _).
  pose proof (exec_same_listeners CallGetUserMethod s4) as L4.
  unfold same_listeners, exec in L4. rewrite Hu in L4. simpl in L4.
  assert (Hu' : user (this s') = Some u) by (eapply getUser_Ok_Some; exact Hu).
  assert (Hp' : provider (this s') = Some (data_provider d)) by (apply K48; exact Hp).
  assert (Ha : data_account d = hex_prefixed (walletAddress u)).
  { rewrite Hd. reflexivity. }
  split; [exact Hp'|]. split; [exists u; split; [exact Hu' | exact Ha]|].
  split; [rewrite Ha; apply hex_prefixed_is_Address|].
  split; [rewrite Hd; reflexivity|].
  split.
  { exists ch. split; [|rewrite Hd; reflexivity].
    rewrite <- K5, K45. exact Hch. }
  split.
  { rewrite L4 by discriminate. rewrite <- Hl.
    rewrite <- (registered_listeners (data_provider d) (env s3)). reflexivity. }
  split; [apply isAuthorized_cached with (u := u); exact Hu'|].
  split; [apply getProvider_cached; exact Hp'|].
  unfold getAccount, bind. rewrite (getUser_cached s' u Hu'). rewrite Ha.
  reflexivity.
Qed.

(** X13.  A [connect()] that follows a [connect()] that resolved resolves
    with the same data, makes no SDK call and changes no field, and
    registers the three listeners on the provider once more. *)
Theorem X13_connect_again (s s' : System) (d : ConnectorData) :
  connect s = (Ok d, s') ->
  exists s'',
    connect s' = (Ok d, s'')
    /\ this s'' = this s'
    /\ world (env s'') = world (env s')
    /\ sdkCalls (env s'') = sdkCalls (env s')
    /\ emitted (env s'') = emitted (env s')
    /\ listeners (env s'') =
         (listeners (env s') ++ connect_listeners (data_provider d))%list.
Proof.
  intro H.
  destruct (connect_Ok_inv _ _ _ H) as (s3 & u & ch & Hp & Hl & Hu & Hch & Hd).
  set (s4 := {| this := this s3; env := registered (data_provider d) (env s3) |}) in *.
  pose proof (stable_getUser keeps keeps_refl keeps_trans keeps_set_sdk
                keeps_set_user s4) as K4.
  rewrite Hu in K4. simpl in K4. unfold keeps in K4.
  destruct K4 as (_ & _ & _ & _ & K45 & _ & _ & K48 & _).
  assert (Hu' : user (this s') = Some u) by (eapply getUser_Ok_Some; exact Hu).
  assert (Hp' : provider (this s') = Some (data_provider d)) by (apply K48; exact Hp).
  assert (Hch' : getChain (chain (paperOptions (this s'))) = Ok ch).
  { rewrite K45. exact Hch. }
  eexists. split.
  - rewrite (connect_cached s' u (data_provider d) ch Hu' Hp' Hch').
    rewrite <- Hd. reflexivity.
  - simpl. repeat split; try reflexivity. apply registered_listeners.
Qed.

Lemma swd_keeps_user (s s' : System) :
  steps_without_disconnect s s' -> keeps_user (this s) (this s').
Proof.
  induction 1 as [s|s1 s2 c _ IH Hc|s1 s2 w _ IH].
  - apply keeps_user_refl.
  - eapply keeps_user_trans; [exact IH | apply exec_keeps_user; exact Hc].
  - exact IH.
Qed.

(** X14.  A cached session is used until [disconnect]: after any calls other
    than [disconnect] and any changes behind the SDK, such as the session
    ending there, [getUser], [isAuthorized()] and [getAccount()] still answer
    from the cache, with no SDK call. *)
Theorem X14_cached_session_is_kept (s s' : System) (u : GetUser) :
  user (this s) = Some u ->
  steps_without_disconnect s s' ->
  getUser s' = (Ok (Some u), s')
  /\ isAuthorized s' = (Ok true, s')
  /\ getAccount s' = (Ok (hex_prefixed (walletAddress u)), s').
Proof.
  intros Hu Hsteps.
  pose proof (swd_keeps_user _ _ Hsteps u Hu) as Hu'.
  split; [apply getUser_cached; exact Hu'|].
  split; [apply isAuthorized_cached with (u := u); exact Hu'|].
  unfold getAccount, bind. rewrite (getUser_cached s' u Hu'). reflexivity.
Qed.

(** X15.  The session that the login prompt resolves with is not cached:
    after a completed login [connect()] asks the SDK for the user again, and
    when that query reports a status other than fully initialized (and no
    provider is cached) [connect()] rejects with the plain error that tells
    the caller to connect first, not wrapped as a user rejection. *)
Theorem X15_login_result_is_not_cached (s s1 : System)
    (resp : AuthLoginReturnType) (w w2 : World) (r : GetUser) :
  isAuthorized s = (Ok false, s1) ->
  auth_loginWithPaperModal (world (env (snd (getSdk s1)))) = (Ok resp, w) ->
  status (resp_user resp) = LOGGED_IN_WALLET_INITIALIZED ->
  provider (this s) = None ->
  sdk_getUser w = (Ok r, w2) ->
  status r <> LOGGED_IN_WALLET_INITIALIZED ->
  fst (connect s) = Throw notLoggedInError.
Proof.
  intros Hauth Hlogin Hst Hp Hq Hr.
  destruct (isAuthorized_false s s1 Hauth) as (Hu & Hu1 & r0 & w0 & Hq0 & Hst0 & Hs1).
  set (s3 := {| this := this (snd (getSdk s1));
                env := set_world w (log_call CallLoginWithPaperModal
                                              (env (snd (getSdk s1)))) |}).
  assert (Hns : no_session s3).
  { split.
    - unfold s3. simpl. rewrite getSdk_user. exact Hu1.
    - exists r, w2. split; [exact Hq | exact Hr]. }
  assert (Hp3 : provider (this s3) = None).
  { unfold s3. simpl. rewrite getSdk_provider. subst s1.
    rewrite after_query_provider. exact Hp. }
  pose proof (getProvider_no_session s3 Hns Hp3) as G.
  unfold connect, bind at 1. rewrite Hauth. simpl negb. cbv iota.
  unfold bind at 1. unfold try_catch, bind at 1.
  fold s3 in G. unfold s3 in G. clear s3 Hns Hp3.
  destruct (getSdk s1) as [[k|e] s2] eqn:Hk.
  - simpl in Hlogin, G |- *. unfold bind at 1, sdk_call at 1.
    rewrite Hlogin. apply UserStatus_eqb_eq in Hst. rewrite Hst. simpl.
    unfold ret at 1. unfold bind at 1.
    destruct (getProvider _) as [[p|e] s4]; simpl in G; [discriminate G|].
    simpl. inversion G. reflexivity.
  - destruct (getSdk_Ok s1) as [k Hk']. rewrite Hk in Hk'. discriminate Hk'.
Qed.

(** X16.  A provider that is cached when [connect()] is called is the one a
    resolving [connect()] returns and leaves cached, whichever session it
    obtained: a provider cached under an earlier session outlives
    [disconnect()] and a new login. *)
Theorem X16_connect_returns_cached_provider (s s' : System) (p : Provider)
    (d : ConnectorData) :
  provider (this s) = Some p ->
  connect s = (Ok d, s') ->
  data_provider d = p /\ provider (this s') = Some p.
Proof.
  intros Hp H.
  pose proof (exec_keeps CallConnect s) as K. unfold exec in K.
  rewrite H in K. simpl in K. unfold keeps in K.
  destruct K as (_ & _ & _ & _ & _ & _ & _ & K & _).
  pose proof (K p Hp) as Hp'.
  destruct (connect_Ok_inv _ _ _ H) as (s3 & u & ch & Hp3 & _ & Hu & _).
  pose proof (stable_getUser keeps keeps_refl keeps_trans keeps_set_sdk
                keeps_set_user
                {| this := this s3; env := registered (data_provider d) (env s3) |})
    as K4.
  rewrite Hu in K4. simpl in K4. unfold keeps in K4.
  destruct K4 as (_ & _ & _ & _ & _ & _ & _ & K48 & _).
  pose proof (K48 _ Hp3) as Hd. split; [congruence | exact Hp'].
Qed.

End Further.

(** ** The statements on the concrete SDK *)

#[local] Existing Instance Demo.externals.

(** An address without the prefix and one with it. *)
Example getAccount_adds_prefix :
  fst (getAccount (Demo.fresh Demo.signed_in)) = Ok "0xabc123".
Proof. reflexivity. Qed.

Example getAccount_keeps_prefix :
  fst (getAccount Demo.bob_cached) = Ok "0xdef456".
Proof. reflexivity. Qed.

Example connect_resolves :
  fst (connect (Demo.fresh Demo.signed_out)) =
    Ok {| data_provider := Demo.the_provider; data_chain_id := 137;
          data_chain_unsupported := false; data_account := "0xabc123" |}.
Proof. reflexivity. Qed.

Lemma fresh_signed_out_no_session : no_session (Demo.fresh Demo.signed_out).
Proof.
  split; [reflexivity|].
  exists Demo.nobody, Demo.signed_out. split; [reflexivity | discriminate].
Defined.

Lemma connected_reachable :
  reachable true Demo.config_polygon (Demo.ambient Demo.signed_out) Demo.connected.
Proof.
  exists (this (Demo.fresh Demo.signed_out)), (env (Demo.fresh Demo.signed_out)).
  split; [reflexivity|].
  eapply steps_next; [apply steps_refl|].
  exact (step_call CallConnect (Demo.fresh Demo.signed_out)).
Defined.

Lemma disconnected_reachable :
  reachable true Demo.config_polygon (Demo.ambient Demo.signed_out) Demo.disconnected.
Proof.
  destruct connected_reachable as (c & a' & Hc & Hsteps).
  exists c, a'. split; [exact Hc|].
  eapply steps_next; [exact Hsteps|].
  exact (step_call CallDisconnect Demo.connected).
Defined.

(** C1 on a connector that was just built, with an SDK that holds no
    session. *)
Lemma C1_accessors_without_session_witness :
  no_session (Demo.fresh Demo.signed_out)
  /\ fst (getAccount (Demo.fresh Demo.signed_out)) = Throw notLoggedInError
  /\ fst (getSigner (Demo.fresh Demo.signed_out)) = Throw notLoggedInError
  /\ fst (getProvider (Demo.fresh Demo.signed_out)) = Throw notLoggedInError.
Proof.
  split; [exact fresh_signed_out_no_session|].
  destruct (C1_accessors_without_session (Demo.fresh Demo.signed_out)
              fresh_signed_out_no_session) as (A & B & C & _).
  split; [exact A|]. split; [exact B|]. apply C. reflexivity.
Defined.

(** C1 as stated fails: after [connect()] and [disconnect()] no session
    exists, and [getProvider()] resolves with the cached provider. *)
Lemma C1_getProvider_resolves_without_session :
  no_session Demo.disconnected
  /\ getProvider Demo.disconnected = (Ok Demo.the_provider, Demo.disconnected)
  /\ fst (getProvider Demo.disconnected) <> Throw notLoggedInError.
Proof.
  split; [|split].
  - split; [reflexivity|].
    exists Demo.nobody, Demo.signed_out. split; [reflexivity | discriminate].
  - reflexivity.
  - discriminate.
Qed.

(** C2 on a session fetched from the SDK. *)
Lemma C2_getAccount_hex_prefixed_witness :
  getUser (Demo.fresh Demo.signed_in) =
    (Ok (Some Demo.alice), snd (getUser (Demo.fresh Demo.signed_in)))
  /\ exists r : Address,
       getAccount (Demo.fresh Demo.signed_in) =
         (Ok r, snd (getUser (Demo.fresh Demo.signed_in)))
       /\ is_Address r = true
       /\ (String.prefix "0x" (walletAddress Demo.alice) = true ->
           r = walletAddress Demo.alice)
       /\ (String.prefix "0x" (walletAddress Demo.alice) = false ->
           r = "0x" ++ walletAddress Demo.alice).
Proof.
  split; [reflexivity|].
  apply (C2_getAccount_hex_prefixed (Demo.fresh Demo.signed_in)
           (snd (getUser (Demo.fresh Demo.signed_in))) Demo.alice).
  reflexivity.
Defined.

(** C3 on the chain name Solana. *)
Lemma C3_constructor_rejects_bad_configuration_witness :
  ~ In (chain (options Demo.config_solana)) supported_chain_names
  /\ exists e,
       constructor true Demo.config_solana (Demo.ambient Demo.signed_out) =
         (Throw e, Demo.ambient Demo.signed_out)
       /\ (e = noClientIdError \/ e = unsupportedChainError).
Proof.
  assert (H : ~ In (chain (options Demo.config_solana)) supported_chain_names).
  { simpl. intros [H|[H|[H|[H|[H|[]]]]]]; discriminate H. }
  split; [exact H|].
  destruct (C3_constructor_rejects_bad_configuration true Demo.config_solana
              (Demo.ambient Demo.signed_out) (or_intror (or_intror H)))
    as (e & E1 & E2 & _).
  exists e. split; [exact E1 | exact E2].
Defined.

Example constructor_empty_client_id :
  constructor true Demo.config_no_client (Demo.ambient Demo.signed_out) =
    (Throw noClientIdError, Demo.ambient Demo.signed_out).
Proof. reflexivity. Qed.

Example constructor_solana :
  constructor true Demo.config_solana (Demo.ambient Demo.signed_out) =
    (Throw unsupportedChainError, Demo.ambient Demo.signed_out).
Proof. reflexivity. Qed.

(** C4 on a login that resolves with an uninitialized wallet. *)
Lemma C4_failed_login_rejects_witness :
  isAuthorized (Demo.fresh Demo.stops_halfway) =
    (Ok false, snd (isAuthorized (Demo.fresh Demo.stops_halfway)))
  /\ fst (connect (Demo.fresh Demo.stops_halfway)) =
       Throw (UserRejectedRequestError unexpectedStatusError)
  /\ user (this (snd (connect (Demo.fresh Demo.stops_halfway)))) = None.
Proof.
  split; [reflexivity|].
  destruct (C4_failed_login_rejects (Demo.fresh Demo.stops_halfway)
              (snd (isAuthorized (Demo.fresh Demo.stops_halfway)))
              (Ok {| resp_user := Demo.halfway |})
              (Demo.stops_halfway : @World Demo.externals)
              eq_refl eq_refl)
    as (E & U & _).
  - simpl. discriminate.
  - rewrite E. split; [reflexivity | exact U].
Defined.

Example connect_cancelled :
  fst (connect (Demo.fresh Demo.cancels)) =
    Throw (UserRejectedRequestError (Error "User closed modal")).
Proof. reflexivity. Qed.

(** C5 on a connector that was just built. *)
Lemma C5_isAuthorized_iff_session_witness :
  user_initialized (Demo.fresh Demo.signed_out)
  /\ (fst (isAuthorized (Demo.fresh Demo.signed_out)) = Ok true <->
      session_obtainable (Demo.fresh Demo.signed_out))
  /\ fst (isAuthorized (Demo.fresh Demo.signed_out)) = Ok false.
Proof.
  assert (H : user_initialized (Demo.fresh Demo.signed_out)).
  { intros u E. discriminate E. }
  split; [exact H|].
  destruct (C5_isAuthorized_iff_session (Demo.fresh Demo.signed_out) H)
    as (A & B & _).
  split; [exact A|].
  exact (B eq_refl Demo.nobody Demo.signed_out eq_refl).
Defined.

(** C5 as stated fails: a connector that was just built, on which
    [connect()] was never called, answers true when the SDK already holds a
    session. *)
Lemma C5_fresh_connector_is_authorized :
  constructor true Demo.config_polygon (Demo.ambient Demo.signed_in) =
    (Ok (this (Demo.fresh Demo.signed_in)), env (Demo.fresh Demo.signed_in))
  /\ fst (isAuthorized (Demo.fresh Demo.signed_in)) = Ok true
  /\ fst (isAuthorized (Demo.fresh Demo.signed_in)) <> Ok false.
Proof.
  split; [reflexivity|]. split; [reflexivity | discriminate].
Qed.

(** C6 on a connected connector. *)
Lemma C6_disconnect_clears_session_witness :
  disconnect Demo.connected = (Ok tt, Demo.disconnected)
  /\ user (this Demo.connected) = Some Demo.alice
  /\ user (this Demo.disconnected) = None
  /\ fst (isAuthorized Demo.disconnected) = Ok false
  /\ fst (getAccount Demo.disconnected) = Throw notLoggedInError.
Proof.
  split; [reflexivity|]. split; [reflexivity|].
  destruct (C6_disconnect_clears_session Demo.connected Demo.disconnected eq_refl)
    as (_ & U & A).
  split; [exact U|].
  apply (A Demo.nobody Demo.signed_out); [reflexivity | discriminate].
Defined.

Example onAccountsChanged_empty :
  emitted (env (snd (onAccountsChanged ThisConnector [] Demo.connected))) =
    [EvDisconnect].
Proof. reflexivity. Qed.

Example onAccountsChanged_two_accounts :
  emitted (env (snd (onAccountsChanged ThisConnector ["0xdef456"; "0xabc123"]
                       Demo.connected))) =
    [EvChange (AccountData "0xdef456")].
Proof. reflexivity. Qed.

(** C7.  An account-change notification is meant to make the connector emit
    [disconnect] (empty list) or [change] with the first account; on the
    path the code sets up it does not.  After [connect()] the listener for
    [accountsChanged] on the provider is the bare method
    [onAccountsChanged]; delivered by the provider it runs with [this]
    undefined or the provider, not the connector, and with either receiver,
    for an empty and for a non-empty account list, the connector emits
    nothing and its state is as before.  Only a call on the connector itself
    emits. *)
Theorem C7_delivered_notification_emits_nothing :
  In (Demo.the_provider, "accountsChanged", L_onAccountsChanged)
     (listeners (env Demo.connected))
  /\ emitted (env Demo.connected) = []
  /\ onAccountsChanged ThisUndefined [] Demo.connected = (Ok tt, Demo.connected)
  /\ onAccountsChanged ThisUndefined ["0xdef456"] Demo.connected =
       (Ok tt, Demo.connected)
  /\ onAccountsChanged (ThisOther Demo.provider_object) [] Demo.connected =
       (Ok tt, Demo.connected)
  /\ onAccountsChanged (ThisOther Demo.provider_object) ["0xdef456"] Demo.connected =
       (Ok tt, Demo.connected)
  /\ emitted (env (snd (onAccountsChanged ThisConnector ["0xdef456"] Demo.connected))) =
       [EvChange (AccountData "0xdef456")].
Proof.
  split; [left; reflexivity|].
  repeat split; reflexivity.
Qed.

(** C8 on a connected connector. *)
Lemma C8_getUser_memoized_witness :
  reachable true Demo.config_polygon (Demo.ambient Demo.signed_out) Demo.connected
  /\ user_initialized Demo.connected
  /\ getUser Demo.connected = (Ok (Some Demo.alice), Demo.connected).
Proof.
  split; [exact connected_reachable|].
  destruct (C8_getUser_memoized true Demo.config_polygon
              (Demo.ambient Demo.signed_out) Demo.connected connected_reachable)
    as (A & B & _).
  split; [exact A|]. apply B. reflexivity.
Defined.

(** C9 on a connector after [connect()] and [disconnect()]. *)
Lemma C9_getChainId_static_witness :
  reachable true Demo.config_polygon (Demo.ambient Demo.signed_out) Demo.disconnected
  /\ exists ch,
       getChain (chain (options Demo.config_polygon)) = Ok ch
       /\ getChainId Demo.disconnected = (Ok (Fulfilled (id ch)), Demo.disconnected).
Proof.
  split; [exact disconnected_reachable|].
  exact (C9_getChainId_static true Demo.config_polygon
           (Demo.ambient Demo.signed_out) Demo.disconnected disconnected_reachable).
Defined.

Example getChainId_polygon :
  fst (getChainId Demo.disconnected) = Ok (Fulfilled 137%Z).
Proof. reflexivity. Qed.

(** C10 on a provider fetched before any [connect()], then a
    [disconnect()]. *)
Lemma C10_cached_provider_survives_witness :
  getProvider (Demo.fresh Demo.signed_in) = (Ok Demo.the_provider, Demo.with_provider)
  /\ steps Demo.with_provider Demo.with_provider_disconnected
  /\ user (this Demo.with_provider_disconnected) = None
  /\ getProvider Demo.with_provider_disconnected =
       (Ok Demo.the_provider, Demo.with_provider_disconnected).
Proof.
  assert (S : steps Demo.with_provider Demo.with_provider_disconnected).
  { eapply steps_next; [apply steps_refl|].
    exact (step_call CallDisconnect Demo.with_provider). }
  split; [reflexivity|]. split; [exact S|]. split; [reflexivity|].
  exact (proj1 (C10_cached_provider_survives (Demo.fresh Demo.signed_in)
                  Demo.with_provider Demo.with_provider_disconnected
                  Demo.the_provider eq_refl S)).
Defined.

(** ** The further properties on the concrete SDKs *)

(** X1 on the Polygon configuration, in a browser. *)
Lemma X1_constructor_accepts_iff_witness :
  constructor true Demo.config_polygon (Demo.ambient Demo.signed_out) =
    (Ok (this (Demo.fresh Demo.signed_out)), env (Demo.fresh Demo.signed_out))
  /\ In (chain (options Demo.config_polygon)) supported_chain_names
  /\ sdkCalls (env (Demo.fresh Demo.signed_out)) =
       [NewSdk (options Demo.config_polygon)].
Proof.
  split; [reflexivity|].
  split; [|reflexivity].
  exact (proj1 (proj2 (proj1
           (X1_constructor_accepts_iff true Demo.config_polygon
              (Demo.ambient Demo.signed_out) (env (Demo.fresh Demo.signed_out))
              (this (Demo.fresh Demo.signed_out))) eq_refl))).
Defined.

(** X2 on a connector after [connect()] and [disconnect()]. *)
Lemma X2_configuration_is_immutable_witness :
  reachable true Demo.config_polygon (Demo.ambient Demo.signed_out) Demo.disconnected
  /\ paperOptions (this Demo.disconnected) = options Demo.config_polygon
  /\ ready (this Demo.disconnected) = true.
Proof.
  split; [exact disconnected_reachable|].
  destruct (X2_configuration_is_immutable true Demo.config_polygon
              (Demo.ambient Demo.signed_out) Demo.disconnected
              disconnected_reachable) as (A & _ & B & _).
  split; [exact A | exact B].
Defined.

(** X3 on a connector after [connect()] and [disconnect()]. *)
Lemma X3_sdk_client_built_once_witness :
  reachable true Demo.config_polygon (Demo.ambient Demo.signed_out) Demo.disconnected
  /\ count_calls is_NewSdk Demo.disconnected <= 1.
Proof.
  split; [exact disconnected_reachable|].
  exact (proj1 (X3_sdk_client_built_once true Demo.config_polygon
                  (Demo.ambient Demo.signed_out) Demo.disconnected
                  disconnected_reachable)).
Defined.

(** X4 on a connector whose endpoint override is the empty string. *)
Lemma X4_getSigner_forwards_witness :
  getUser (Flaky.with_session Flaky.Forgetful) =
    (Ok (Some Demo.alice), Flaky.with_session Flaky.Forgetful)
  /\ rpcEndpoint (this (Flaky.with_session Flaky.Forgetful)) = Some (NetworkName "")
  /\ sdkCalls (env (snd (getSigner (X := Flaky.externals)
                           (Flaky.with_session Flaky.Forgetful)))) =
       [NewSdk (options Flaky.config); CallGetEthersJsSigner 1 None].
Proof.
  split; [reflexivity|]. split; [reflexivity|].
  destruct (X4_getSigner_forwards (X := Flaky.externals)
              (Flaky.with_session Flaky.Forgetful)
              (Flaky.with_session Flaky.Forgetful) Demo.alice
              (Ok {| signer_provider := None |})
              (Flaky.Forgetful : @World Flaky.externals) eq_refl eq_refl)
    as (E & _).
  rewrite E. reflexivity.
Defined.

(** X5 on a signer without a provider. *)
Lemma X5_getProvider_follows_signer_witness :
  provider (this (Flaky.with_session Flaky.Forgetful)) = None
  /\ fst (getProvider (X := Flaky.externals) (Flaky.with_session Flaky.Forgetful)) =
       Throw failedSignerError.
Proof.
  split; [reflexivity|].
  destruct (X5_getProvider_follows_signer (X := Flaky.externals)
              (Flaky.with_session Flaky.Forgetful)
              (snd (getSigner (X := Flaky.externals)
                      (Flaky.with_session Flaky.Forgetful)))
              (Ok {| signer_provider := None |}) eq_refl eq_refl)
    as (_ & E & _).
  rewrite E. reflexivity.
Defined.

(** X6 on an SDK that cannot be reached. *)
Lemma X6_user_query_failure_is_handed_on_witness :
  user (this (Flaky.fresh Flaky.Unreachable)) = None
  /\ fst (connect (X := Flaky.externals) (Flaky.fresh Flaky.Unreachable)) =
       Throw Flaky.network_error
  /\ fst (getAccount (X := Flaky.externals) (Flaky.fresh Flaky.Unreachable)) =
       Throw Flaky.network_error.
Proof.
  split; [reflexivity|].
  destruct (X6_user_query_failure_is_handed_on (X := Flaky.externals)
              (Flaky.fresh Flaky.Unreachable) Flaky.network_error
              (Flaky.Unreachable : @World Flaky.externals) eq_refl eq_refl)
    as (A & _ & _ & _ & C & _).
  split; [rewrite C; reflexivity | exact A].
Defined.

(** X7 on an SDK whose logout fails, with a session cached. *)
Lemma X7_failed_logout_clears_nothing_witness :
  auth_logout (Externals := Flaky.externals)
    (world (env (Flaky.with_session Flaky.Unreachable))) =
    (Throw Flaky.network_error, Flaky.Unreachable)
  /\ exists s',
       disconnect (X := Flaky.externals) (Flaky.with_session Flaky.Unreachable) =
         (Throw Flaky.network_error, s')
       /\ user (this s') = Some Demo.alice.
Proof.
  split; [reflexivity|].
  destruct (X7_failed_logout_clears_nothing (X := Flaky.externals)
              (Flaky.with_session Flaky.Unreachable) Flaky.network_error
              (Flaky.Unreachable : @World Flaky.externals) eq_refl)
    as (s' & E & U & _).
  exists s'. split; [exact E | exact U].
Defined.

(** X8 on the relays as the provider runs them after [connect()]. *)
Lemma X8_relays_only_emit_witness :
  unbound (ThisOther Demo.provider_object) = true
  /\ snd (onAccountsChanged (ThisOther Demo.provider_object) ["0xdef456"]
            Demo.connected) = Demo.connected
  /\ fst (onChainChanged (ThisOther Demo.provider_object) (ChainIdNumber 1)
            Demo.connected) =
       Throw (TypeError "this.isChainUnsupported is not a function")
  /\ snd (onChainChanged (ThisOther Demo.provider_object) (ChainIdNumber 1)
            Demo.connected) = Demo.connected.
Proof.
  split; [reflexivity|].
  destruct X8_relays_only_emit as (_ & H & _).
  destruct (H (ThisOther Demo.provider_object) Demo.connected eq_refl)
    as (A & _ & C).
  split; [apply A|]. split; [reflexivity | apply C].
Defined.

(** X9 on [connect()]. *)
Lemma X9_only_relays_emit_witness :
  is_relay CallConnect = false
  /\ emitted (env (exec CallConnect (Demo.fresh Demo.signed_out))) = [].
Proof.
  split; [reflexivity|].
  exact (X9_only_relays_emit CallConnect (Demo.fresh Demo.signed_out) eq_refl).
Defined.

(** X10 on [disconnect()] after [connect()]. *)
Lemma X10_listeners_are_never_removed_witness :
  CallDisconnect <> CallConnect
  /\ listeners (env Demo.disconnected) = listeners (env Demo.connected)
  /\ listeners (env Demo.connected) = connect_listeners Demo.the_provider.
Proof.
  assert (H : CallDisconnect <> CallConnect) by discriminate.
  split; [exact H|]. split; [|reflexivity].
  exact (proj1 X10_listeners_are_never_removed CallDisconnect Demo.connected H).
Defined.

(** X11 on a [connect()] that has to log in. *)
Lemma X11_login_and_logout_calls_witness :
  isAuthorized (Demo.fresh Demo.signed_out) =
    (Ok false, snd (isAuthorized (Demo.fresh Demo.signed_out)))
  /\ count_calls is_login Demo.connected = 1.
Proof.
  split; [reflexivity|].
  destruct X11_login_and_logout_calls as (_ & _ & H & _).
  exact (H (Demo.fresh Demo.signed_out)
           (snd (isAuthorized (Demo.fresh Demo.signed_out))) eq_refl).
Defined.

(** X12 on the first [connect()] of a connector. *)
Lemma X12_connect_establishes_witness :
  connect (Demo.fresh Demo.signed_out) =
    (Ok {| data_provider := Demo.the_provider; data_chain_id := 137;
           data_chain_unsupported := false; data_account := "0xabc123" |},
     Demo.connected)
  /\ provider (this Demo.connected) = Some Demo.the_provider
  /\ listeners (env Demo.connected) = connect_listeners Demo.the_provider.
Proof.
  split; [reflexivity|].
  destruct (X12_connect_establishes (Demo.fresh Demo.signed_out) Demo.connected
              {| data_provider := Demo.the_provider; data_chain_id := 137;
                 data_chain_unsupported := false; data_account := "0xabc123" |}
              eq_refl)
    as (P & _ & _ & _ & _ & L & _).
  split; [exact P | exact L].
Defined.

(** X13 on a second [connect()]. *)
Lemma X13_connect_again_witness :
  connect (Demo.fresh Demo.signed_out) =
    (Ok {| data_provider := Demo.the_provider; data_chain_id := 137;
           data_chain_unsupported := false; data_account := "0xabc123" |},
     Demo.connected)
  /\ exists s'',
       connect Demo.connected =
         (Ok {| data_provider := Demo.the_provider; data_chain_id := 137;
                data_chain_unsupported := false; data_account := "0xabc123" |},
          s'')
       /\ sdkCalls (env s'') = sdkCalls (env Demo.connected)
       /\ length (listeners (env s'')) = 6.
Proof.
  split; [reflexivity|].
  destruct (X13_connect_again (Demo.fresh Demo.signed_out) Demo.connected
              {| data_provider := Demo.the_provider; data_chain_id := 137;
                 data_chain_unsupported := false; data_account := "0xabc123" |}
              eq_refl)
    as (s'' & E & _ & _ & C & _ & L).
  exists s''. split; [exact E|]. split; [exact C|].
  rewrite L. reflexivity.
Defined.

(** X14 on a session that has ended behind the SDK. *)
Lemma X14_cached_session_is_kept_witness :
  user (this Demo.connected) = Some Demo.alice
  /\ steps_without_disconnect Demo.connected Demo.stale
  /\ fst (sdk_getUser (Externals := Demo.externals) (world (env Demo.stale))) =
       Ok Demo.nobody
  /\ getAccount Demo.stale = (Ok "0xabc123", Demo.stale).
Proof.
  assert (S : steps_without_disconnect Demo.connected Demo.stale).
  { unfold Demo.stale. apply swd_call; [|discriminate].
    apply swd_world. apply swd_refl. }
  split; [reflexivity|]. split; [exact S|]. split; [reflexivity|].
  exact (proj2 (proj2 (X14_cached_session_is_kept Demo.connected Demo.stale
                         Demo.alice eq_refl S))).
Defined.

(** X15 on an SDK that forgets the login. *)
Lemma X15_login_result_is_not_cached_witness :
  isAuthorized (X := Flaky.externals) (Flaky.fresh Flaky.Forgetful) =
    (Ok false, snd (isAuthorized (X := Flaky.externals) (Flaky.fresh Flaky.Forgetful)))
  /\ fst (connect (X := Flaky.externals) (Flaky.fresh Flaky.Forgetful)) =
       Throw notLoggedInError.
Proof.
  split; [reflexivity|].
  apply (X15_login_result_is_not_cached (X := Flaky.externals)
           (Flaky.fresh Flaky.Forgetful)
           (snd (isAuthorized (X := Flaky.externals) (Flaky.fresh Flaky.Forgetful)))
           {| resp_user := Demo.alice |}
           (Flaky.Forgetful : @World Flaky.externals)
           (Flaky.Forgetful : @World Flaky.externals)
           Demo.nobody);
    try reflexivity.
  discriminate.
Defined.

(** X16 on a connector that connects again after [disconnect()]. *)
Lemma X16_connect_returns_cached_provider_witness :
  provider (this Demo.disconnected) = Some Demo.the_provider
  /\ user (this Demo.disconnected) = None
  /\ data_provider
       {| data_provider := Demo.the_provider; data_chain_id := 137;
          data_chain_unsupported := false; data_account := "0xabc123" |} =
     Demo.the_provider.
Proof.
  split; [reflexivity|]. split; [reflexivity|].
  exact (proj1 (X16_connect_returns_cached_provider Demo.disconnected
                  (snd (connect Demo.disconnected)) Demo.the_provider
                  {| data_provider := Demo.the_provider; data_chain_id := 137;
                     data_chain_unsupported := false; data_account := "0xabc123" |}
                  eq_refl eq_refl)).
Defined.
